(** * ytat: the joke-to-short pipeline, embedded and checked

    A shallow embedding of the Python sources
    [config.py], [script_generator.py], [video_creator.py],
    [video_creator_lite.py], [youtube_uploader.py] and [main.py].

    Python values are an inductive type, dictionaries are finite maps with
    string keys, exceptions are an explicit outcome, and everything the
    code reads from outside (network, clock, random numbers, the media and
    upload libraries) is an explicit parameter. *)

From Stdlib Require Import ZArith QArith Qminmax Lia Ascii String.
From stdpp Require Import gmap strings list fin_maps.

Set Warnings "-register-all".
Open Scope Z_scope.

(** ** Python values and outcomes *)

Module Py.

(** A Python object as far as the pipeline handles one: what [json.load]
    returns, plus the dictionaries the code builds itself.  A [str] is a
    Rocq string read one character per code point (texts with code points
    below 256); a float is the rational it denotes. *)
Inductive value : Type :=
| VNone
| VBool (b : bool)
| VInt (z : Z)
| VFloat (q : Q)
| VStr (s : string)
| VList (l : list value)
| VDict (d : gmap string value).

Abbreviation dict := (gmap string value).

(** The exceptions the sources can meet; every one derives from
    [Exception], [HttpError] carries [e.resp.status]. *)
Inductive exn : Type :=
| KeyError (k : string)
| TypeError
| AttributeError
| IndexError
| OSError
| JSONDecodeError
| RequestException
| MediaError
| HttpError (status : Z).

(** What a call does: return, raise, or (for the one unbounded loop of
    the sources) exhaust the iteration budget given to the model. *)
Inductive outcome (A : Type) : Type :=
| Return (a : A)
| Raise (e : exn)
| OutOfFuel.
Arguments Return {A} a.
Arguments Raise {A} e.
Arguments OutOfFuel {A}.

#[export] Instance outcome_ret : MRet outcome := @Return.
#[export] Instance outcome_bind : MBind outcome := fun A B f m =>
  match m with
  | Return a => f a
  | Raise e => Raise e
  | OutOfFuel => OutOfFuel
  end.

(** [try: m  except Exception as e: h e] *)
Definition try_except {A} (m : outcome A) (h : exn → outcome A) : outcome A :=
  match m with
  | Raise e => h e
  | r => r
  end.

(** Truth value of an object, as [if x:] and [not x] take it. *)
Definition truthy (v : value) : bool :=
  match v with
  | VNone => false
  | VBool b => b
  | VInt z => negb (z =? 0)
  | VFloat q => negb (Qeq_bool q 0)
  | VStr s => negb (String.eqb s "")
  | VList l => match l with [] => false | _ => true end
  | VDict d => negb (bool_decide (d = ∅))
  end.

(** [v == s] for a string literal [s]. *)
Definition eq_str (v : value) (s : string) : bool :=
  match v with
  | VStr t => String.eqb t s
  | _ => false
  end.

(** [d[k]] *)
Definition getitem (d : dict) (k : string) : outcome value :=
  match d !! k with
  | Some v => Return v
  | None => Raise (KeyError k)
  end.

(** [d.get(k, default)] *)
Definition dict_get (d : dict) (k : string) (default : value) : value :=
  match d !! k with
  | Some v => v
  | None => default
  end.

(** [k in d] *)
Definition has_key (d : dict) (k : string) : bool := bool_decide (is_Some (d !! k)).

(** [x.get(k, default)] on an arbitrary object: only a dict has [get]. *)
Definition obj_get (x : value) (k : string) (default : value) : outcome value :=
  match x with
  | VDict d => Return (dict_get d k default)
  | _ => Raise AttributeError
  end.

(** [d.update({k1: v1, ...})], the pairs taken left to right. *)
Definition dict_update (d : dict) (kvs : list (string * value)) : dict :=
  foldl (fun acc kv => <[kv.1 := kv.2]> acc) d kvs.

(** A dict display [{k1: v1, ...}]. *)
Definition mkdict (kvs : list (string * value)) : dict := dict_update ∅ kvs.

(** [needle in hay] on strings. *)
Fixpoint contains (needle hay : string) : bool :=
  String.prefix needle hay ||
  match hay with
  | EmptyString => false
  | String _ rest => contains needle rest
  end.

(** [str.isspace] on one character: code points 9-13, 28-32, 133, 160. *)
Definition isspace (c : ascii) : bool :=
  let n := Z.of_nat (nat_of_ascii c) in
  ((9 <=? n) && (n <=? 13)) || ((28 <=? n) && (n <=? 32)) || (n =? 133) || (n =? 160).

Definition flush (cur : string) : list string :=
  match cur with EmptyString => [] | _ => [cur] end.

Fixpoint split_go (cur s : string) : list string :=
  match s with
  | EmptyString => flush cur
  | String c rest =>
      if isspace c then flush cur ++ split_go "" rest
      else split_go (cur +:+ String c "") rest
  end.

(** [s.split()]: the maximal runs of non-whitespace characters. *)
Definition split (s : string) : list string := split_go "" s.

Fixpoint split_on_go (sep : ascii) (cur s : string) : list string :=
  match s with
  | EmptyString => [cur]
  | String c rest =>
      if Ascii.eqb c sep then cur :: split_on_go sep "" rest
      else split_on_go sep (cur +:+ String c "") rest
  end.

(** [s.split(sep)] for a one-character separator: never the empty list. *)
Definition split_on (sep : ascii) (s : string) : list string := split_on_go sep "" s.

(** [str.lower] on one character: A-Z and the accented capitals
    192-222 (215 apart) move up by 32. *)
Definition lower_char (c : ascii) : ascii :=
  let n := nat_of_ascii c in
  if ((65 <=? n) && (n <=? 90))%nat
     || ((192 <=? n) && (n <=? 222) && negb (n =? 215))%nat
  then ascii_of_nat (n + 32) else c.

Fixpoint lower (s : string) : string :=
  match s with
  | EmptyString => EmptyString
  | String c rest => String (lower_char c) (lower rest)
  end.

(** [len(s)] *)
Definition len (s : string) : Z := Z.of_nat (String.length s).

(** [x[:n]]: strings and lists can be sliced, nothing else here can. *)
Definition slice_to (n : nat) (x : value) : outcome value :=
  match x with
  | VStr s => Return (VStr (String.substring 0 n s))
  | VList l => Return (VList (take n l))
  | _ => Raise TypeError
  end.

(** [random.choice(l)] with the random number [r] drawn. *)
Definition choice {A} (r : nat) (l : list A) : outcome A :=
  match l !! (r `mod` length l)%nat with
  | Some x => Return x
  | None => Raise IndexError
  end.

(** *** State

    The files on disk, what [time.sleep] was asked for, and how often the
    upload request was asked for its next chunk. *)
Inductive file : Type :=
| FJson (v : value)                      (* the JSON text of [v] *)
| FText (fields : list (string * value)) (* a text file, its labelled fields *)
| FVideo (size : Z * Z) (fps : Z) (duration : Q)
| FImage (size : Z * Z) (background : Z * Z * Z) (drawn : list (value * Z * Z))
| FRaw.                                  (* anything else *)

Record World : Type := mkWorld {
  files : gmap string file;
  slept : list Z;
  chunks : nat
}.

(** A computation over state [W]. *)
Definition M (W A : Type) : Type := W → outcome A * W.

#[export] Instance M_ret {W} : MRet (M W) := fun A a w => (Return a, w).
#[export] Instance M_bind {W} : MBind (M W) := fun A B f m w =>
  match m w with
  | (Return a, w') => f a w'
  | (Raise e, w') => (Raise e, w')
  | (OutOfFuel, w') => (OutOfFuel, w')
  end.

Definition lift {W A} (o : outcome A) : M W A := fun w => (o, w).

(** [try: m  except Exception as e: h e], the state changes kept. *)
Definition try_catch {W A} (m : M W A) (h : exn → M W A) : M W A := fun w =>
  match m w with
  | (Raise e, w') => h e w'
  | r => r
  end.

(** [os.path.exists(path)] *)
Definition path_exists (path : string) : M World bool :=
  fun w => (Return (bool_decide (is_Some (files w !! path))), w).

(** [with open(path, 'w') as f: json.dump(v, f)]; [can_write] tells
    whether [open] succeeds, and a failing [open] leaves the file as it
    was. *)
Definition write_json (can_write : string → bool) (path : string) (v : value)
  : M World unit := fun w =>
  if can_write path
  then (Return (), mkWorld (<[path := FJson v]> (files w)) (slept w) (chunks w))
  else (Raise OSError, w).

(** [x.append(y)]: only a list has [append]. *)
Definition append (x y : value) : outcome value :=
  match x with
  | VList l => Return (VList (l ++ [y]))
  | _ => Raise AttributeError
  end.

(** [len(x)] on an arbitrary object. *)
Definition len_of (x : value) : outcome Z :=
  match x with
  | VStr s => Return (len s)
  | VList l => Return (Z.of_nat (length l))
  | VDict d => Return (Z.of_nat (size d))
  | _ => Raise TypeError
  end.

(** [x.split()] on an arbitrary object: only a [str] has [split]. *)
Definition split_of (x : value) : outcome (list string) :=
  match x with
  | VStr s => Return (split s)
  | _ => Raise AttributeError
  end.

(** [with open(path, 'r') as f: json.load(f)] *)
Definition read_json (path : string) : M World value := fun w =>
  match files w !! path with
  | Some (FJson v) => (Return v, w)
  | Some _ => (Raise JSONDecodeError, w)
  | None => (Raise OSError, w)
  end.

(** [with open(path, 'w') as f: f.write(...)], any other file. *)
Definition write_file (can_write : string → bool) (path : string) (f : file)
  : M World unit := fun w =>
  if can_write path
  then (Return (), mkWorld (<[path := f]> (files w)) (slept w) (chunks w))
  else (Raise OSError, w).

(** [time.sleep(secs)] *)
Definition sleep (secs : Z) : M World unit := fun w =>
  (Return (), mkWorld (files w) (slept w ++ [secs]) (chunks w)).

(** A font of the imaging library. *)
Inductive font : Type :=
| Truetype (name : string) (size : Z)
| DefaultFont.

(** *** The outside

    Calls into the media and imaging libraries, each of which may fail. *)
Inductive lib_call : Type :=
| NewColorClip
| NewVideoFileClip
| NewTextClip (styled : bool) (text : value)
| NewEmojiClip
| ResizeClip
| NewComposite
| WriteVideofile
| FontTruetype
| FontDefault
| DrawText (line : value)
| SaveImage
| NewMediaFileUpload
| NewInsertRequest.

(** What the outside answers: a result, or the exception it raises. *)
Inductive answer (A : Type) : Type :=
| Ok (a : A)
| Fail (e : exn).
Arguments Ok {A} a.
Arguments Fail {A} e.

Definition perform {A} (a : answer A) : outcome A :=
  match a with
  | Ok a => Return a
  | Fail e => Raise e
  end.

Record Env : Type := mkEnv {
  str_other : value → string;   (* [str(x)] for [x] that is no [str] *)
  now_iso : string;             (* [datetime.now().isoformat()] *)
  now_strftime : string → string;   (* [datetime.now().strftime(fmt)] *)
  can_write : string → bool;    (* [open(path, 'w')] succeeds *)
  http_get_json : string → answer value;
      (* [requests.get(url, ...)], [raise_for_status()], [.json()] *)
  shuffle : list string → list string;   (* [random.shuffle] *)
  rand : nat;                   (* the number behind [random.choice] *)
  coin : bool;                  (* [random.choice([True, False])] *)
  lib_ok : lib_call → bool;     (* the library call succeeds *)
  text_width : font → value → Z;    (* width of [draw.textbbox] *)
  pil_available : bool;         (* [PIL_AVAILABLE] *)
  next_chunk : nat → answer (option dict)
      (* the n-th [insert_request.next_chunk()]: its response, or the
         exception it raises *)
}.

(** [str(x)], as an f-string applies it. *)
Definition str (env : Env) (x : value) : string :=
  match x with
  | VStr s => s
  | _ => str_other env x
  end.

(** A library call that returns [r] or raises. *)
Definition lib {A} (env : Env) (c : lib_call) (r : A) : outcome A :=
  if lib_ok env c then Return r else Raise MediaError.

End Py.
Import Py.

(** ** config.py *)

Module Config.

Record t : Type := mk {
  config_file : string;
  settings : dict
}.

(** The loop of [Config.get] over [keys]. *)
Fixpoint get_keys (keys : list string) (cur default : value) : value :=
  match keys with
  | [] => cur
  | key :: keys' =>
      match cur with
      | VDict d =>
          match d !! key with
          | Some v => get_keys keys' v default
          | None => default
          end
      | _ => default
      end
  end.

Definition get (self : t) (key_path : string) (default : value) : value :=
  get_keys (split_on "." key_path) (VDict (settings self)) default.

(** The loop of [Config.set] over [keys[:-1]] and the final assignment
    [config[keys[-1]] = value].  The nested dictionary is changed in
    place by the Python code; the settings tree has no sharing, so this
    rebuilds the path.  An intermediate object that is no dict makes
    [in], the subscript or the assignment raise [TypeError], before
    anything was changed. *)
Fixpoint set_keys (keys : list string) (val : value) (config : dict)
  : outcome dict :=
  match keys with
  | [] => Raise IndexError
  | [key] => Return (<[key := val]> config)
  | key :: keys' =>
      match (match config !! key with Some c => c | None => VDict ∅ end) with
      | VDict sub =>
          sub' ← set_keys keys' val sub;
          Return (<[key := VDict sub']> config)
      | _ => Raise TypeError
      end
  end.

(** [save_config]: a failure to write is printed, not raised. *)
Definition save_config (env : Env) (self : t) : M World unit :=
  try_catch (write_json (can_write env) (config_file self) (VDict (settings self)))
            (fun _ => mret ()).

Definition set (env : Env) (self : t) (key_path : string) (val : value)
  : M World t :=
  settings' ← lift (set_keys (split_on "." key_path) val (settings self));
  let self' := mk (config_file self) settings' in
  _ ← save_config env self';
  mret self'.

(** Every key of the path but the last is absent or bound to a dict. *)
Fixpoint intermediate_ok (keys : list string) (config : dict) : Prop :=
  match keys with
  | [] => True
  | [_] => True
  | key :: keys' =>
      match config !! key with
      | None => True
      | Some (VDict sub) => intermediate_ok keys' sub
      | Some _ => False
      end
  end.

(** The literal [default_config] of [load_config]. *)
Definition default_config : dict :=
  mkdict [
    ("automation", VDict (mkdict [
      ("daily_upload_time", VStr "10:00");
      ("max_video_duration", VInt 60);
      ("upload_privacy", VStr "public");
      ("auto_set_thumbnail", VBool true);
      ("enable_scheduling", VBool true)]));
    ("script_generation", VDict (mkdict [
      ("joke_apis", VList (VStr <$> [
        "https://official-joke-api.appspot.com/random_joke";
        "https://v2.jokeapi.dev/joke/Any?blacklistFlags=nsfw,religious,political,racist,sexist,explicit&type=single";
        "https://icanhazdadjoke.com/"]));
      ("fallback_to_local", VBool true);
      ("min_script_length", VInt 10);
      ("max_script_length", VInt 200);
      ("preferred_joke_types", VList (VStr <$> [
        "dad_joke";
        "one_liner";
        "pun"]))]));
    ("video_creation", VDict (mkdict [
      ("resolution", VDict (mkdict [
        ("width", VInt 1080);
        ("height", VInt 1920)]));
      ("fps", VInt 30);
      ("background_type", VStr "animated");
      ("text_style", VDict (mkdict [
        ("font", VStr "Arial-Bold");
        ("font_size", VInt 80);
        ("color", VStr "white");
        ("stroke_color", VStr "black");
        ("stroke_width", VInt 3)]));
      ("emoji_settings", VDict (mkdict [
        ("enabled", VBool true);
        ("size", VInt 150);
        ("animation", VBool true)]));
      ("background_colors", VList [VList [VInt 25; VInt 25; VInt 112]; VList [VInt 72; VInt 61; VInt 139]; VList [VInt 106; VInt 90; VInt 205]; VList [VInt 30; VInt 144; VInt 255]; VList [VInt 0; VInt 100; VInt 0]; VList [VInt 85; VInt 107; VInt 47]; VList [VInt 139; VInt 69; VInt 19]; VList [VInt 160; VInt 82; VInt 45]])]));
    ("youtube", VDict (mkdict [
      ("default_category", VStr "23");
      ("default_language", VStr "en");
      ("made_for_kids", VBool false);
      ("enable_comments", VBool true);
      ("enable_ratings", VBool true);
      ("default_tags", VList (VStr <$> [
        "funny";
        "comedy";
        "humor";
        "shorts";
        "viral";
        "laugh";
        "hilarious";
        "entertainment";
        "fun";
        "joke";
        "meme";
        "youtubeshorts";
        "short";
        "trending";
        "fyp";
        "foryou"]));
      ("title_templates", VList (VStr <$> [
        "😂 This Will Make You LAUGH!";
        "🤣 Funniest Short You'll See Today!";
        "😂 You Won't Believe This!";
        "🤣 This Is TOO FUNNY!";
        "😂 Watch This & Try Not to Laugh!";
        "🤣 Hilarious Short Alert!";
        "😂 This Cracked Me Up!";
        "🤣 You NEED to See This!"]));
      ("description_template", VStr "🤣 Hope this made you laugh! 

{script_content}

🔔 Subscribe for daily funny shorts!
👍 Like if this made you smile!
💬 Comment your favorite part!

#Shorts #Funny #Comedy #Viral #Entertainment")]));
    ("directories", VDict (mkdict [
      ("scripts", VStr "scripts");
      ("videos", VStr "videos");
      ("audio", VStr "audio");
      ("images", VStr "images");
      ("temp", VStr "temp");
      ("logs", VStr "logs");
      ("assets", VStr "assets")]));
    ("logging", VDict (mkdict [
      ("level", VStr "INFO");
      ("file", VStr "automation.log");
      ("max_file_size", VStr "10MB");
      ("backup_count", VInt 5)]));
    ("apis", VDict (mkdict [
      ("timeout", VInt 10);
      ("retry_attempts", VInt 3);
      ("retry_delay", VInt 2)]));
    ("advanced", VDict (mkdict [
      ("cleanup_temp_files", VBool true);
      ("save_metadata", VBool true);
      ("create_thumbnails", VBool true);
      ("backup_videos", VBool false);
      ("analytics_tracking", VBool true)]))].

(** [_merge_configs(default, loaded)] below the top level, where [loaded]
    is known to be a dict: each item of [loaded] is stored in [default],
    merged first when both sides hold a dict.  The keys of a dict being
    distinct, the order of [loaded.items()] does not matter. *)
Fixpoint merge_into (loaded : value) (default : dict) {struct loaded} : dict :=
  match loaded with
  | VDict l =>
      map_fold
        (fun key val default =>
           match val, default !! key with
           | VDict _, Some (VDict d) => <[key := VDict (merge_into val d)]> default
           | _, _ => <[key := val]> default
           end)
        default l
  | _ => default
  end.

(** [loaded.items()] raises on anything but a dict. *)
Definition _merge_configs (default : dict) (loaded : value) : outcome dict :=
  match loaded with
  | VDict _ => Return (merge_into loaded default)
  | _ => Raise AttributeError
  end.

(** [save_config(config)] with the configuration given. *)
Definition save_config_of (env : Env) (config_file : string) (config : dict)
  : M World unit :=
  try_catch (write_json (can_write env) config_file (VDict config))
            (fun _ => mret ()).

Definition load_config (env : Env) (config_file : string) : M World dict :=
  file_exists ← path_exists config_file;
  if file_exists : bool then
    try_catch
      (loaded_config ← read_json config_file;
       lift (_merge_configs default_config loaded_config))
      (fun _ => mret default_config)
  else
    _ ← save_config_of env config_file default_config;
    mret default_config.

(** [Config(config_file)] *)
Definition init (env : Env) (config_file : string) : M World t :=
  settings ← load_config env config_file;
  mret (mk config_file settings).

Definition get_upload_schedule (self : t) : value :=
  get self "automation.daily_upload_time" (VStr "10:00").

Definition feature_map : list (string * string) := [
  ("scheduling", "automation.enable_scheduling");
  ("thumbnails", "automation.auto_set_thumbnail");
  ("emoji", "video_creation.emoji_settings.enabled");
  ("cleanup", "advanced.cleanup_temp_files");
  ("metadata", "advanced.save_metadata");
  ("analytics", "advanced.analytics_tracking")
].

Definition is_feature_enabled (self : t) (feature : string) : value :=
  match (list_to_map feature_map : gmap string string) !! feature with
  | Some path => get self path (VBool true)
  | None => VBool false
  end.

End Config.

(** ** script_generator.py *)

Module ScriptGenerator.

Definition official_joke_api : string :=
  "https://official-joke-api.appspot.com/random_joke".
Definition jokeapi_dev : string :=
  "https://v2.jokeapi.dev/joke/Any?blacklistFlags=nsfw,religious,political,racist,sexist,explicit&type=single".
Definition icanhazdadjoke : string :=
  "https://icanhazdadjoke.com/".

Definition joke_apis : list string :=
  [official_joke_api; jokeapi_dev; icanhazdadjoke].

Definition dad_joke (setup punchline : string) : dict :=
  mkdict [("setup", VStr setup); ("punchline", VStr punchline);
          ("type", VStr "dad_joke")].

Definition one_liner (joke : string) : dict :=
  mkdict [("joke", VStr joke); ("type", VStr "one_liner")].

Definition backup_jokes : list dict := [
  dad_joke "Why don't scientists trust atoms?" "Because they make up everything!";
  dad_joke "What do you call a fake noodle?" "An impasta!";
  dad_joke "Why did the scarecrow win an award?"
           "Because he was outstanding in his field!";
  dad_joke "What do you call a bear with no teeth?" "A gummy bear!";
  dad_joke "Why don't eggs tell jokes?" "They'd crack each other up!";
  one_liner "I told my wife she was drawing her eyebrows too high. She looked surprised.";
  one_liner "I invented a new word: Plagiarism!";
  one_liner "Why do programmers prefer dark mode? Because light attracts bugs!"
].

(** [if joke_data:] on an [Optional[Dict]]. *)
Definition truthy_opt (o : option dict) : bool :=
  match o with
  | Some d => truthy (VDict d)
  | None => false
  end.

(** The body of [fetch_joke_from_api] after [data = response.json()]:
    one branch per endpoint; a URL that matches none falls off the end
    of the function. *)
Definition parse_joke (api_url : string) (data : value) : outcome (option dict) :=
  if contains "official-joke-api" api_url then
    setup ← obj_get data "setup" (VStr "");
    punchline ← obj_get data "punchline" (VStr "");
    Return (Some (mkdict [("setup", setup); ("punchline", punchline);
                          ("type", VStr "dad_joke")]))
  else if contains "jokeapi.dev" api_url then
    ty ← obj_get data "type" VNone;
    if eq_str ty "single" then
      joke ← obj_get data "joke" (VStr "");
      Return (Some (mkdict [("joke", joke); ("type", VStr "one_liner")]))
    else
      setup ← obj_get data "setup" (VStr "");
      delivery ← obj_get data "delivery" (VStr "");
      Return (Some (mkdict [("setup", setup); ("punchline", delivery);
                            ("type", VStr "dad_joke")]))
  else if contains "icanhazdadjoke" api_url then
    joke ← obj_get data "joke" (VStr "");
    Return (Some (mkdict [("joke", joke); ("type", VStr "one_liner")]))
  else Return None.

Definition fetch_joke_from_api (env : Env) (api_url : string)
  : outcome (option dict) :=
  try_except
    (data ← perform (http_get_json env api_url);
     parse_joke api_url data)
    (fun _ => Return None).

(** The [for api_url in self.joke_apis] loop. *)
Fixpoint try_apis (env : Env) (apis : list string) : outcome (option dict) :=
  match apis with
  | [] => Return None
  | api_url :: apis' =>
      joke_data ← fetch_joke_from_api env api_url;
      if truthy_opt joke_data then Return joke_data
      else try_apis env apis'
  end.

(** [random.shuffle] reorders [self.joke_apis] in place; the order it
    leaves behind for the next call is not kept here. *)
Definition get_joke_from_apis (env : Env) : outcome (option dict) :=
  try_apis env (shuffle env joke_apis).

Definition get_backup_joke (env : Env) : outcome dict :=
  choice (rand env) backup_jokes.

Definition format_script (env : Env) (joke_data : dict) : outcome dict :=
  let script_data := mkdict [
    ("timestamp", VStr (now_iso env));
    ("source", VStr (if has_key joke_data "setup" || has_key joke_data "joke"
                     then "api" else "backup"));
    ("type", dict_get joke_data "type" (VStr "unknown"))
  ] in
  ty ← getitem joke_data "type";
  if eq_str ty "dad_joke" && has_key joke_data "setup" then
    setup ← getitem joke_data "setup";
    punchline ← getitem joke_data "punchline";
    Return (dict_update script_data [
      ("script", VStr (str env setup +:+ " " +:+ str env punchline));
      ("setup", setup);
      ("punchline", punchline);
      ("duration", VInt 6);
      ("topic", VStr "dad joke")
    ])
  else if eq_str ty "one_liner" && has_key joke_data "joke" then
    joke ← getitem joke_data "joke";
    Return (dict_update script_data [
      ("script", joke);
      ("duration", VInt 4);
      ("topic", VStr "one liner")
    ])
  else
    let script_text :=
      dict_get joke_data "joke"
        (VStr (str env (dict_get joke_data "setup" (VStr "")) +:+ " " +:+
               str env (dict_get joke_data "punchline" (VStr "")))) in
    words ← split_of script_text;
    Return (dict_update script_data [
      ("script", script_text);
      ("duration", VInt (Z.of_nat (length words) `div` 2));
      ("topic", VStr "humor")
    ]).

Definition cue (time : value) (action : string) : value :=
  VDict (mkdict [("time", time); ("action", VStr action)]).

Definition overlay (text start stop : value) : value :=
  VDict (mkdict [("text", text); ("start", start); ("end", stop)]).

Definition background_audio : value :=
  VDict (mkdict [("type", VStr "upbeat_comedy"); ("volume", VFloat (3 # 10));
                 ("fade_in", VFloat (1 # 2)); ("fade_out", VFloat (1 # 2))]).

Definition suggested_hashtags : value :=
  VList (VStr <$> ["#shorts"; "#funny"; "#comedy"; "#joke"; "#humor";
                   "#viral"; "#laughs"; "#entertainment"]).

Definition enhance_script_for_video (script_data : dict) : outcome dict :=
  let enhanced_script :=
    <["text_overlays" := VList []]> (<["visual_cues" := VList []]> script_data) in
  ty ← getitem script_data "type";
  enhanced_script ←
    (if eq_str ty "dad_joke" then
       Return (dict_update enhanced_script [
         ("visual_cues", VList [
            cue (VInt 0) "show_setup_text";
            cue (VInt 2) "dramatic_pause";
            cue (VInt 3) "show_punchline_text";
            cue (VInt 5) "show_laughing_emoji"]);
         ("text_overlays", VList [
            overlay (dict_get script_data "setup" (VStr "")) (VInt 0) (VFloat (5 # 2));
            overlay (dict_get script_data "punchline" (VStr "")) (VInt 3) (VInt 6)])
       ])
     else
       duration ← getitem enhanced_script "duration";
       script ← getitem script_data "script";
       Return (dict_update enhanced_script [
         ("visual_cues", VList [
            cue (VInt 0) "show_joke_text";
            cue duration "show_laughing_emoji"]);
         ("text_overlays", VList [overlay script (VInt 0) duration])
       ]));
  Return (dict_update enhanced_script [
    ("background_audio", background_audio);
    ("suggested_hashtags", suggested_hashtags)
  ]).

Definition script_filename (env : Env) : string :=
  "scripts/script_" +:+ now_strftime env "%Y%m%d_%H%M%S" +:+ ".json".

Definition generate_funny_script (env : Env) : M World (option dict) :=
  try_catch
    (joke_data ← lift (get_joke_from_apis env);
     joke_data ← (match joke_data with
                  | Some d => if truthy (VDict d) then mret d
                              else lift (get_backup_joke env)
                  | None => lift (get_backup_joke env)
                  end);
     script_data ← lift (format_script env joke_data);
     enhanced_script ← lift (enhance_script_for_video script_data);
     _ ← write_json (can_write env) (script_filename env) (VDict enhanced_script);
     script ← lift (getitem enhanced_script "script");
     _ ← lift (slice_to 100 script);
     mret (Some enhanced_script))
    (fun _ => mret None).

(** [x > 60]: numbers compare, anything else raises [TypeError]. *)
Definition gt_60 (x : value) : outcome bool :=
  match x with
  | VInt z => Return (60 <? z)
  | VBool b => Return false
  | VFloat q => Return (negb (Qle_bool q 60))
  | _ => Raise TypeError
  end.

Definition required_fields : list string := ["script"; "duration"; "type"].

(** [validate_script]; a duration above 60 is warned about and nothing
    more. *)
Definition validate_script (script_data : dict) : outcome bool :=
  if negb (forallb (has_key script_data) required_fields) then Return false
  else
    script ← getitem script_data "script";
    n ← len_of script;
    if n <? 10 then Return false
    else
      duration ← getitem script_data "duration";
      _ ← gt_60 duration;
      Return true.

End ScriptGenerator.

(** ** video_creator.py *)

Module VideoCreator.

Definition video_size : Z * Z := (1080, 1920).
Definition video_fps : Z := 30.
Definition text_fontsize : Z := 80.

Definition background_colors : list (Z * Z * Z) := [
  (25, 25, 112); (72, 61, 139); (106, 90, 205); (30, 144, 255);
  (0, 100, 0); (85, 107, 47); (139, 69, 19); (160, 82, 45)
].

(** The clips the media library is asked for.  Times are seconds;
    products such as [duration * 0.6] are taken exactly. *)
Inductive clip : Type :=
| ColorClip (size : Z * Z) (color : Z * Z * Z) (duration : Q)
| GradientClip (duration : Q)
| TextClip (text : value) (fontsize : Z) (styled : bool) (position : string)
           (start stop : Q)
| EmojiClip (emoji : string) (fontsize : Z) (start duration : Q).

(** A [CompositeVideoClip] after [set_duration]. *)
Record composite : Type := mkComposite {
  clips : list clip;
  size : Z * Z;
  duration : Q
}.

(** [min(x, 60)]: numbers compare, a [bool] counts as 0 or 1, anything
    else raises [TypeError]. *)
Definition min_60 (x : value) : outcome Q :=
  match x with
  | VInt z => Return (inject_Z (Z.min z 60))
  | VBool b => Return (inject_Z (Z.min (if b then 1 else 0) 60))
  | VFloat q => Return (Qmin q 60)
  | _ => Raise TypeError
  end.

Definition create_background_video (env : Env) (duration : Q) : outcome clip :=
  color ← choice (rand env) background_colors;
  lib env NewColorClip (ColorClip video_size color duration).

Definition create_animated_background (env : Env) (duration : Q) : outcome clip :=
  try_except
    (lib env NewVideoFileClip (GradientClip duration))
    (fun _ => create_background_video env duration).

(** The block "Adjust font size for long text" of [create_text_clip],
    [n] being [len(text)]. *)
Definition adjust_fontsize (fontsize n : Z) : Z :=
  if n >? 50 then Z.max 40 (fontsize - 10)
  else if n >? 100 then Z.max 30 (fontsize - 20)
  else fontsize.

Definition create_text_clip (env : Env) (text : value) (start_time end_time : Q)
  (position : string) (fontsize : option Z) : outcome clip :=
  let fontsize := default text_fontsize fontsize in
  n ← len_of text;
  let fontsize := adjust_fontsize fontsize n in
  try_except
    (lib env (NewTextClip true text)
       (TextClip text fontsize true position start_time end_time))
    (fun _ =>
       lib env (NewTextClip false text)
         (TextClip text fontsize false position start_time end_time)).

Definition create_emoji_clip (env : Env) (emoji : string) (start_time duration : Q)
  : outcome (option clip) :=
  try_except
    (c ← lib env NewEmojiClip (EmojiClip emoji 150 start_time duration);
     c ← lib env ResizeClip c;
     Return (Some c))
    (fun _ => Return None).

(** "Background music feature not implemented yet": the video as it is. *)
Definition add_background_music (video : composite) : composite := video.

Definition create_video_from_script (env : Env) (script_data : dict)
  : outcome (option composite) :=
  try_except
    (duration ← min_60 (dict_get script_data "duration" (VInt 10));
     background ← (if coin env then create_animated_background env duration
                   else create_background_video env duration);
     ty ← getitem script_data "type";
     clips ←
       (if eq_str ty "dad_joke" && has_key script_data "setup" then
          setup ← getitem script_data "setup";
          setup_clip ← create_text_clip env setup 0 (duration * (6 # 10))
                         "center" None;
          punchline ← getitem script_data "punchline";
          punchline_clip ← create_text_clip env punchline (duration * (4 # 10))
                             duration "center" (Some (text_fontsize + 10));
          emoji_clip ← create_emoji_clip env "😂" (duration * (8 # 10)) 1;
          Return ([background; setup_clip; punchline_clip] ++ option_list emoji_clip)
        else
          script ← getitem script_data "script";
          text_clip ← create_text_clip env script 0 duration "center" None;
          emoji_clip ← create_emoji_clip env "🤣" (duration * (7 # 10)) 1;
          Return ([background; text_clip] ++ option_list emoji_clip));
     final_video ← lib env NewComposite (mkComposite clips video_size duration);
     let final_video :=
       if truthy (dict_get script_data "background_audio" VNone)
       then add_background_music final_video else final_video in
     Return (Some final_video))
    (fun _ => Return None).

Definition output_path (env : Env) : string :=
  "videos/short_" +:+ now_strftime env "%Y%m%d_%H%M%S" +:+ ".mp4".

Definition create_video (env : Env) (script_data : dict) : M World (option string) :=
  try_catch
    (video_clip ← lift (create_video_from_script env script_data);
     match video_clip with
     | None => mret None
     | Some video_clip =>
         _ ← lift (lib env WriteVideofile ());
         _ ← write_file (can_write env) (output_path env)
               (FVideo (size video_clip) video_fps (duration video_clip));
         mret (Some (output_path env))
     end)
    (fun _ => mret None).

End VideoCreator.

(** ** video_creator_lite.py *)

Module VideoCreatorLite.

Definition image_size : Z * Z := (1080, 1920).

Definition background_colors : list (Z * Z * Z) := VideoCreator.background_colors.

Definition text_output_path (env : Env) : string :=
  "videos/short_" +:+ now_strftime env "%Y%m%d_%H%M%S" +:+ ".txt".

Definition image_output_path (env : Env) : string :=
  "videos/short_" +:+ now_strftime env "%Y%m%d_%H%M%S" +:+ ".jpg".

(** The text written by [create_text_file], field by field. *)
Definition text_content (env : Env) (script_data : dict) : file :=
  FText [
    ("Created", VStr (now_strftime env "%Y-%m-%d %H:%M:%S"));
    ("Type", dict_get script_data "type" (VStr "unknown"));
    ("Content", dict_get script_data "script" (VStr "No content available"));
    ("Duration", dict_get script_data "duration" (VStr "Unknown"));
    ("Topic", dict_get script_data "topic" (VStr "humor"));
    ("Visual Cues", dict_get script_data "visual_cues" (VList []));
    ("Text Overlays", dict_get script_data "text_overlays" (VList []))
  ].

Definition create_text_file (env : Env) (script_data : dict)
  : M World (option string) :=
  try_catch
    (_ ← write_file (can_write env) (text_output_path env)
           (text_content env script_data);
     mret (Some (text_output_path env)))
    (fun _ => mret None).

(** [font] and [emoji_font], or nothing when no font can be loaded. *)
Definition load_fonts (env : Env) : option (font * font) :=
  if lib_ok env FontTruetype
  then Some (Truetype "arial.ttf" 80, Truetype "seguiemj.ttf" 150)
  else if lib_ok env FontDefault then Some (DefaultFont, DefaultFont)
  else None.

Definition emoji_lines : list string := ["😂"; "🤣"; "😄"; "😆"].

(** The drawing loop over [enumerate(text_lines)] from index [i] on:
    the lines drawn, each with its position. *)
Fixpoint draw_lines (env : Env) (fonts : font * font) (i : Z)
  (text_lines : list value) : outcome (list (value * Z * Z)) :=
  match text_lines with
  | [] => Return []
  | line :: text_lines' =>
      if negb (truthy line) then draw_lines env fonts (i + 1) text_lines'
      else
        let current_font :=
          if existsb (eq_str line) emoji_lines then fonts.2 else fonts.1 in
        _ ← lib env (DrawText line) ();
        let x := (image_size.1 - text_width env current_font line) `div` 2 in
        let y := image_size.2 `div` 4 + i * 100 in
        drawn ← draw_lines env fonts (i + 1) text_lines';
        Return ((line, x, y) :: drawn)
  end.

Definition create_text_image (env : Env) (script_data : dict)
  : M World (option string) :=
  try_catch
    (if negb (pil_available env) then create_text_file env script_data
     else
       background_color ← lift (choice (rand env) background_colors);
       match load_fonts env with
       | None => create_text_file env script_data
       | Some fonts =>
           ty ← lift (getitem script_data "type");
           text_lines ← lift
             (if eq_str ty "dad_joke" && has_key script_data "setup" then
                setup ← getitem script_data "setup";
                punchline ← getitem script_data "punchline";
                Return [setup; VStr ""; punchline; VStr ""; VStr "😂"]
              else
                script ← getitem script_data "script";
                Return [script; VStr ""; VStr "🤣"]);
           drawn ← lift (draw_lines env fonts 0 text_lines);
           _ ← lift (lib env SaveImage ());
           _ ← write_file (can_write env) (image_output_path env)
                 (FImage image_size background_color drawn);
           mret (Some (image_output_path env))
       end)
    (fun _ => create_text_file env script_data).

(** [if not content_path:] on an [Optional[str]]. *)
Definition truthy_path (o : option string) : bool :=
  match o with
  | Some p => truthy (VStr p)
  | None => false
  end.

Definition create_video (env : Env) (script_data : dict) : M World (option string) :=
  try_catch
    (content_path ← create_text_image env script_data;
     if negb (truthy_path content_path) then mret None
     else mret content_path)
    (fun _ => mret None).

End VideoCreatorLite.

(** ** youtube_uploader.py *)

Module YouTubeUploader.

(** The uploader object: whether [self.youtube] holds a service, which
    [authenticate] decides when the object is made. *)
Record t : Type := mk {
  youtube : bool
}.

Definition uploads_log_path : string := "uploads_log.json".

(** [e.resp.status in [500, 502, 503, 504]] *)
Definition retriable (status : Z) : bool :=
  bool_decide (status ∈ [500; 502; 503; 504]).

(** How the [try] statement inside the loop of [_resumable_upload] ends:
    with a [return], or by falling through with [error] as it is now
    (the status of the retriable error stands for its message). *)
Inductive attempt : Type :=
| Done (result : value)
| Continue (error : option Z).

Definition call_next_chunk (env : Env) : M World (option dict) := fun w =>
  (perform (next_chunk env (chunks w)), mkWorld (files w) (slept w) (S (chunks w))).

(** The [while response is None] loop, [fuel] bounding its iterations. *)
Fixpoint resumable_loop (env : Env) (fuel : nat) (error : option Z) (retry : Z)
  : M World value :=
  match fuel with
  | O => lift OutOfFuel
  | S fuel' =>
      r ← try_catch
            (response ← call_next_chunk env;
             match response with
             | Some response =>
                 if has_key response "id"
                 then id ← lift (getitem response "id"); mret (Done id)
                 else mret (Done VNone)
             | None => mret (Continue error)
             end)
            (fun e =>
               match e with
               | HttpError status =>
                   if retriable status then mret (Continue (Some status))
                   else mret (Done VNone)
               | _ => mret (Done VNone)
               end);
      match r with
      | Done result => mret result
      | Continue error =>
          match error with
          | Some _ =>
              let retry := retry + 1 in
              if retry >? 3 then mret VNone
              else
                _ ← sleep (2 ^ retry);
                resumable_loop env fuel' error retry
          | None => resumable_loop env fuel' error retry
          end
      end
  end.

Definition _resumable_upload (env : Env) (fuel : nat) : M World value :=
  resumable_loop env fuel None 0.

Definition upload_record (env : Env) (video_id : value) (video_path title
  description : string) (tags : list string) : value :=
  VDict (mkdict [
    ("video_id", video_id);
    ("video_path", VStr video_path);
    ("title", VStr title);
    ("description", VStr description);
    ("tags", VList (VStr <$> tags));
    ("upload_time", VStr (now_iso env));
    ("url", VStr ("https://www.youtube.com/watch?v=" +:+ str env video_id))
  ]).

Definition _save_upload_metadata (env : Env) (video_id : value) (video_path
  title description : string) (tags : list string) : M World unit :=
  try_catch
    (let metadata := upload_record env video_id video_path title description tags in
     log_exists ← path_exists uploads_log_path;
     uploads ← (if log_exists : bool then read_json uploads_log_path
                else mret (VList []));
     uploads ← lift (append uploads metadata);
     write_json (can_write env) uploads_log_path uploads)
    (fun _ => mret ()).

Definition upload_video (env : Env) (self : t) (fuel : nat) (video_path title
  description : string) (tags : list string) : M World value :=
  try_catch
    (if negb (youtube self) then mret VNone
     else
       video_exists ← path_exists video_path;
       if negb (video_exists : bool) then mret VNone
       else
         _ ← lift (lib env NewMediaFileUpload ());
         _ ← lift (lib env NewInsertRequest ());
         video_id ← _resumable_upload env fuel;
         if truthy video_id then
           _ ← _save_upload_metadata env video_id video_path title description tags;
           mret video_id
         else mret VNone)
    (fun _ => mret VNone).

Definition CLIENT_SECRETS_FILE : string := "client_secrets.json".
Definition CREDENTIALS_FILE : string := "youtube_credentials.pkl".

(** An OAuth credential as [authenticate] looks at it. *)
Record credentials : Type := mkCredentials {
  valid : bool;
  expired : bool;
  refresh_token : bool      (* a refresh token is there *)
}.

(** What [authenticate] meets outside: what [pickle.load] finds in the
    credentials file, what [credentials.refresh] leaves, what the
    interactive consent ([from_client_secrets_file], [run_local_server])
    ends in, and whether [build] succeeds. *)
Record Google : Type := mkGoogle {
  pickle_load : answer credentials;
  refresh : credentials → answer credentials;
  run_local_server : answer credentials;
  build : credentials → answer unit
}.

(** The interactive consent, which needs the client secrets: the new
    credentials, or nothing where [authenticate] returns [False] for want
    of the secrets file. *)
Definition consent (google : Google) : M World (option credentials) :=
  has_secrets ← path_exists CLIENT_SECRETS_FILE;
  if negb (has_secrets : bool) then mret None
  else c' ← lift (perform (run_local_server google)); mret (Some c').

(** The branch "no valid credentials" of [authenticate]: refresh what
    is expired and can be refreshed, ask for consent otherwise, and save
    the new credentials for the next run. *)
Definition renew (env : Env) (google : Google) (stored : option credentials)
  : M World (option credentials) :=
  new ← (match stored with
         | Some c =>
             if expired c && refresh_token c
             then c' ← lift (perform (refresh google c)); mret (Some c')
             else consent google
         | None => consent google
         end);
  match new with
  | None => mret None
  | Some c' =>
      _ ← write_file (can_write env) CREDENTIALS_FILE FRaw;
      mret (Some c')
  end.

(** [authenticate]: its result and the object it leaves. *)
Definition authenticate (env : Env) (google : Google) (self : t)
  : M World (bool * t) :=
  try_catch
    (has_stored ← path_exists CREDENTIALS_FILE;
     stored ← (if has_stored : bool
               then c ← lift (perform (pickle_load google)); mret (Some c)
               else mret None);
     credentials ←
       (match stored with
        | Some c => if valid c then mret stored else renew env google stored
        | None => renew env google stored
        end);
     match credentials with
     | None => mret (false, self)
     | Some c =>
         _ ← lift (perform (build google c));
         mret (true, mk true)
     end)
    (fun _ => mret (false, self)).

(** [YouTubeUploader()] *)
Definition init (env : Env) (google : Google) : M World t :=
  r ← authenticate env google (mk false);
  mret r.2.

End YouTubeUploader.

(** ** main.py *)

Module Main.

(** [content_data] *)
Record content : Type := mkContent {
  video_path : string;
  title : string;
  description : string;
  tags : list string;
  script : dict;
  created_at : string
}.

Definition content_json (c : content) : value :=
  VDict (mkdict [
    ("video_path", VStr (video_path c));
    ("title", VStr (title c));
    ("description", VStr (description c));
    ("tags", VList (VStr <$> tags c));
    ("script", VDict (script c));
    ("created_at", VStr (created_at c))
  ]).

(** The stages the orchestrator calls on its collaborators. *)
Inductive event : Type :=
| GenerateScript
| CreateVideo (script_data : dict)
| UploadVideo (video_path title description : string) (tags : list string).

(** A run: the state the collaborators work on, and the stages invoked
    so far, oldest first. *)
Record Run : Type := mkRun {
  world : World;
  trace : list event
}.

Definition is_upload (ev : event) : bool :=
  match ev with
  | UploadVideo _ _ _ _ => true
  | _ => false
  end.

Definition invoke {A} (ev : event) (m : M World A) : M Run A := fun r =>
  let (o, w') := m (world r) in (o, mkRun w' (trace r ++ [ev])).

Definition in_world {A} (m : M World A) : M Run A := fun r =>
  let (o, w') := m (world r) in (o, mkRun w' (trace r)).

(** The pictographs of the titles and of the description are kept as
    the bytes of the source file. *)
Definition base_titles : list string := [
  "ðŸ˜‚ This Will Make You LAUGH!";
  "ðŸ¤£ Funniest Short You'll See Today!";
  "ðŸ˜‚ You Won't Believe This!";
  "ðŸ¤£ This Is TOO FUNNY!";
  "ðŸ˜‚ Watch This & Try Not to Laugh!";
  "ðŸ¤£ Hilarious Short Alert!";
  "ðŸ˜‚ This Cracked Me Up!";
  "ðŸ¤£ You NEED to See This!"
].

Definition base_tags : list string := [
  "funny"; "comedy"; "humor"; "shorts"; "viral"; "laugh";
  "hilarious"; "entertainment"; "fun"; "joke"; "meme";
  "youtubeshorts"; "short"; "trending"; "fyp"; "foryou"
].

Definition generate_title (env : Env) (script_data : dict) : outcome string :=
  choice (rand env) base_titles.

Definition generate_tags (script_data : dict) : outcome (list string) :=
  base_tags ←
    (if has_key script_data "topic" then
       topic ← getitem script_data "topic";
       words ← (match topic with
                | VStr s => Return (split (lower s))
                | _ => Raise AttributeError
                end);
       Return (base_tags ++ words)
     else Return base_tags);
  Return (take 15 base_tags).

Definition generate_description (env : Env) (script_data : dict) : string :=
  "ðŸ¤£ Hope this made you laugh! 

" +:+
  str env (dict_get script_data "script" (VStr "Funny content ahead!")) +:+
  "

ðŸ”” Subscribe for daily funny shorts!
ðŸ‘ Like if this made you smile!
ðŸ’¬ Comment your favorite part!

#Shorts #Funny #Comedy #Viral #Entertainment
".

Definition metadata_path (env : Env) : string :=
  "videos/" +:+ now_strftime env "%Y%m%d_%H%M%S" +:+ "_metadata.json".

Section Automation.

Variable env : Env.

(** [self.script_gen], [self.video_creator] and [self.uploader], by
    the one method of each that the orchestrator calls. *)
Variable generate_funny_script : M World (option dict).
Variable create_video : dict → M World (option string).
Variable uploader_upload_video :
  string → string → string → list string → M World value.

Definition generate_content : M Run (option content) :=
  try_catch
    (script_data ← invoke GenerateScript generate_funny_script;
     match script_data with
     | None => mret None
     | Some script_data =>
         if negb (truthy (VDict script_data)) then mret None
         else
           video_path ← invoke (CreateVideo script_data) (create_video script_data);
           match video_path with
           | None => mret None
           | Some video_path =>
               if negb (truthy (VStr video_path)) then mret None
               else
                 title ← lift (generate_title env script_data);
                 tags ← lift (generate_tags script_data);
                 let description := generate_description env script_data in
                 let content_data :=
                   mkContent video_path title description tags script_data
                             (now_iso env) in
                 _ ← in_world (write_json (can_write env) (metadata_path env)
                                          (content_json content_data));
                 mret (Some content_data)
           end
     end)
    (fun _ => mret None).

Definition upload_video (content_data : content) : M Run value :=
  try_catch
    (upload_result ←
       invoke (UploadVideo (video_path content_data) (title content_data)
                           (description content_data) (tags content_data))
              (uploader_upload_video (video_path content_data) (title content_data)
                                     (description content_data) (tags content_data));
     if truthy upload_result then mret upload_result else mret VNone)
    (fun _ => mret VNone).

Definition daily_automation : M Run bool :=
  try_catch
    (content_data ← generate_content;
     match content_data with
     | None => mret false
     | Some content_data =>
         upload_result ← upload_video content_data;
         if negb (truthy upload_result) then mret false
         else mret true
     end)
    (fun _ => mret false).

End Automation.

(** The pipeline as [YouTubeShortsAutomation.__init__] wires it, with
    the full renderer or, where the media library is missing, the lite
    one. *)
Definition automation (env : Env) (full_renderer : bool)
  (uploader : YouTubeUploader.t) (fuel : nat) : M Run bool :=
  daily_automation env
    (ScriptGenerator.generate_funny_script env)
    (if full_renderer then VideoCreator.create_video env
     else VideoCreatorLite.create_video env)
    (YouTubeUploader.upload_video env uploader fuel).

End Main.

(** ** Concrete surroundings, for examples *)

Module Scenario.

(** An environment where the network is down, every library call and
    every write succeeds, and the upload transport answers as [transport]
    says. *)
Definition offline (transport : nat → answer (option dict)) : Env := {|
  str_other := fun _ => "<object>";
  now_iso := "2024-01-01T10:00:00";
  now_strftime := fun _ => "20240101_100000";
  can_write := fun _ => true;
  http_get_json := fun _ => Fail RequestException;
  shuffle := fun l => l;
  rand := 0;
  coin := false;
  lib_ok := fun _ => true;
  text_width := fun _ _ => 400;
  pil_available := true;
  next_chunk := transport
|}.

(** The same, with [open(path, 'w')] failing everywhere. *)
Definition readonly (env : Env) : Env := {|
  str_other := str_other env;
  now_iso := now_iso env;
  now_strftime := now_strftime env;
  can_write := fun _ => false;
  http_get_json := http_get_json env;
  shuffle := shuffle env;
  rand := rand env;
  coin := coin env;
  lib_ok := lib_ok env;
  text_width := text_width env;
  pil_available := pil_available env;
  next_chunk := next_chunk env
|}.

(** The same, with the network answering as [net] says. *)
Definition online (env : Env) (net : string → answer value) : Env := {|
  str_other := str_other env;
  now_iso := now_iso env;
  now_strftime := now_strftime env;
  can_write := can_write env;
  http_get_json := net;
  shuffle := shuffle env;
  rand := rand env;
  coin := coin env;
  lib_ok := lib_ok env;
  text_width := text_width env;
  pil_available := pil_available env;
  next_chunk := next_chunk env
|}.

(** The same, with every call into the media libraries failing. *)
Definition broken_media (env : Env) : Env := {|
  str_other := str_other env;
  now_iso := now_iso env;
  now_strftime := now_strftime env;
  can_write := can_write env;
  http_get_json := http_get_json env;
  shuffle := shuffle env;
  rand := rand env;
  coin := coin env;
  lib_ok := fun _ => false;
  text_width := text_width env;
  pil_available := pil_available env;
  next_chunk := next_chunk env
|}.

(** The same, without the imaging library. *)
Definition without_pil (env : Env) : Env := {|
  str_other := str_other env;
  now_iso := now_iso env;
  now_strftime := now_strftime env;
  can_write := can_write env;
  http_get_json := http_get_json env;
  shuffle := shuffle env;
  rand := rand env;
  coin := coin env;
  lib_ok := lib_ok env;
  text_width := text_width env;
  pil_available := false;
  next_chunk := next_chunk env
|}.

(** Transports: HTTP [status] on the first [n] calls and then a response
    carrying [id]; HTTP [status] for ever. *)
Definition fails_then_ok (n : nat) (status : Z) (id : value)
  : nat → answer (option dict) := fun i =>
  if (i <? n)%nat then Fail (HttpError status)
  else Ok (Some {[ "id" := id ]}).

Definition always_fails (status : Z) : nat → answer (option dict) :=
  fun _ => Fail (HttpError status).

(** A disk holding one rendered asset and nothing else. *)
Definition fresh_disk : World := mkWorld {[ "videos/short.mp4" := FRaw ]} [] 0.

Definition empty_disk : World := mkWorld ∅ [] 0.

(** A disk whose upload log is no JSON text, as an interrupted write
    leaves it. *)
Definition damaged_log_disk : World :=
  mkWorld {[ "videos/short.mp4" := FRaw; "uploads_log.json" := FRaw ]} [] 0.

(** A disk whose upload log holds one earlier record. *)
Definition earlier_record : value :=
  VDict {[ "video_id" := VStr "xyz789"; "title" := VStr "earlier" ]}.

Definition used_disk : World :=
  mkWorld {[ "videos/short.mp4" := FRaw;
             "uploads_log.json" := FJson (VList [earlier_record]) ]} [] 0.

(** A script asking for 500 seconds. *)
Definition long_script : dict :=
  mkdict [("type", VStr "one_liner");
          ("script", VStr "I invented a new word: Plagiarism!");
          ("duration", VInt 500);
          ("topic", VStr "one liner")].

(** A response of icanhazdadjoke.com whose joke text is empty. *)
Definition empty_joke_response : dict :=
  {[ "id" := VStr "R7UfaahVfFd"; "joke" := VStr ""; "status" := VInt 200 ]}.

(** A response of icanhazdadjoke.com, and one whose joke is [null]. *)
Definition joke_response : dict :=
  {[ "id" := VStr "R7UfaahVfFd";
     "joke" := VStr "My dog used to chase people on a bike a lot. It got so bad I had to take his bike away.";
     "status" := VInt 200 ]}.

Definition null_joke_response : dict :=
  {[ "id" := VStr "R7UfaahVfFd"; "joke" := VNone; "status" := VInt 200 ]}.

(** A network where icanhazdadjoke.com alone answers, with [data]. *)
Definition only_icanhazdadjoke (data : dict) : string → answer value := fun url =>
  if String.eqb url ScriptGenerator.icanhazdadjoke then Ok (VDict data)
  else Fail RequestException.

(** A text of 101 characters. *)
Definition text_101 : string :=
  "Why did the developer go broke? Because he used up all his cache, and then lost his domain in a crash".

(** A settings tree with one nested section. *)
Definition sample_config : Config.t :=
  Config.mk "config.json"
    {[ "automation" := VDict {[ "daily_upload_time" := VStr "10:00" ]} ]}.

End Scenario.

(** ** Vocabulary of the statements *)

Module Spec.

(** The sleeps of [k] retries in a row, the retry counter standing at
    [retry] before the first of them: [2 ** (retry + 1)], ... *)
Fixpoint backoffs (retry : Z) (k : nat) : list Z :=
  match k with
  | O => []
  | S k' => 2 ^ (retry + 1) :: backoffs (retry + 1) k'
  end.

(** The state after one more call of [next_chunk], and after a sleep. *)
Definition bump (w : World) : World :=
  mkWorld (files w) (slept w) (S (chunks w)).

Definition nap (secs : Z) (w : World) : World :=
  mkWorld (files w) (slept w ++ [secs]) (chunks w).

(** [upload_video] gets as far as the transfer: the service is
    authenticated, the asset is on disk, and the request can be made. *)
Definition ready (env : Env) (self : YouTubeUploader.t) (video_path : string)
  (w : World) : Prop :=
  YouTubeUploader.youtube self = true
  ∧ is_Some (files w !! video_path)
  ∧ lib_ok env NewMediaFileUpload = true
  ∧ lib_ok env NewInsertRequest = true.

(** The upload log after one more record, given what it held: a missing
    file starts a list, a JSON list grows at its end, anything else is
    kept as it is. *)
Definition log_with (record : value) (log : option file) : option file :=
  match log with
  | None => Some (FJson (VList [record]))
  | Some (FJson (VList old)) => Some (FJson (VList (old ++ [record])))
  | other => other
  end.



(** The response [data] of endpoint [api_url], normalized and then
    formatted, is a script of kind [kind] with script text [script]. *)
Definition normalized (env : Env) (api_url : string) (data : dict)
  (kind : string) (script : value) : Prop :=
  ∃ joke_data script_data,
    ScriptGenerator.parse_joke api_url (VDict data) = Return (Some joke_data)
    ∧ ScriptGenerator.format_script env joke_data = Return script_data
    ∧ script_data !! "type" = Some (VStr kind)
    ∧ script_data !! "script" = Some script.

(** A joke record as the endpoints and the backup list give it: a setup
    and a punchline, or one line of text. *)
Definition well_formed_joke (joke_data : dict) : Prop :=
  (∃ setup punchline,
     joke_data = mkdict [("setup", setup); ("punchline", punchline);
                         ("type", VStr "dad_joke")])
  ∨ (∃ joke : string,
       joke_data = mkdict [("joke", VStr joke); ("type", VStr "one_liner")]).

(** Every [joke] field the network delivers is a text. *)
Definition jokes_are_text (env : Env) : Prop :=
  ∀ url data joke,
    http_get_json env url = Ok (VDict data) →
    data !! "joke" = Some joke →
    ∃ s, joke = VStr s.

(** What [generate_funny_script] does once the joke is chosen. *)
Definition finish (env : Env) (joke_data : dict) : M World (option dict) :=
  script_data ← lift (ScriptGenerator.format_script env joke_data);
  enhanced_script ← lift (ScriptGenerator.enhance_script_for_video script_data);
  _ ← write_json (can_write env) (ScriptGenerator.script_filename env)
        (VDict enhanced_script);
  script ← lift (getitem enhanced_script "script");
  _ ← lift (slice_to 100 script);
  mret (Some enhanced_script).

(** The field [label] of a text file. *)
Fixpoint field (label : string) (fields : list (string * value)) : option value :=
  match fields with
  | [] => None
  | (l, v) :: fields' => if String.eqb l label then Some v else field label fields'
  end.

(** The duration an asset on disk carries: that of the video, the one a
    text file records, none for an image. *)
Definition asset_duration (f : file) : option value :=
  match f with
  | FVideo _ _ d => Some (VFloat d)
  | FText fields => field "Duration" fields
  | _ => None
  end.

(** [v] is a number above 60. *)
Definition over_60 (v : value) : bool :=
  match v with
  | VInt z => 60 <? z
  | VFloat q => negb (Qle_bool q 60)
  | _ => false
  end.

End Spec.

(** ** Further vocabulary *)

Module Notions.

(** Two key paths that part ways: a common prefix, then different
    keys. *)
Definition diverge (keys keys' : list string) : Prop :=
  ∃ prefix key key' rest rest',
    keys = prefix ++ key :: rest
    ∧ keys' = prefix ++ key' :: rest'
    ∧ key ≠ key'.

(** The path [keys] leads through dicts to [v] in [config]. *)
Fixpoint holds (keys : list string) (config : dict) (v : value) : Prop :=
  match keys with
  | [] => False
  | [key] => config !! key = Some v
  | key :: keys' =>
      ∃ sub, config !! key = Some (VDict sub) ∧ holds keys' sub v
  end.

(** The file content [loaded] says nothing at [keys]: along the path it
    holds dicts only, and somewhere the next key is missing. *)
Fixpoint silent (keys : list string) (loaded : dict) : Prop :=
  match keys with
  | [] => False
  | key :: keys' =>
      match loaded !! key with
      | None => True
      | Some (VDict sub) => silent keys' sub
      | Some _ => False
      end
  end.

Definition is_dict (v : value) : Prop := ∃ d, v = VDict d.

(** A joke record with a setup or a joke text. *)
Definition keyed (joke_data : dict) : Prop :=
  has_key joke_data "setup" || has_key joke_data "joke" = true.

(** What [enhance_script_for_video] sets. *)
Definition enrichment_keys : list string :=
  ["visual_cues"; "text_overlays"; "background_audio"; "suggested_hashtags"].

(** A source that is of no use: the request fails, or the body is no
    JSON object. *)
Definition useless (env : Env) (api_url : string) : Prop :=
  (∃ e, http_get_json env api_url = Fail e)
  ∨ (∃ data, http_get_json env api_url = Ok data ∧ ¬ is_dict data).

End Notions.

(** ** Further surroundings, for examples *)

Module Cases.

(** A configuration file that sets the upload time and nothing else. *)
Definition evening_settings : dict :=
  {[ "automation" := VDict {[ "daily_upload_time" := VStr "18:30" ]} ]}.

Definition configured_disk : World :=
  mkWorld {[ "config.json" := FJson (VDict evening_settings) ]} [] 0.

(** Transports: a permanent HTTP error; [n] chunks in progress and then
    a response carrying [id]; one HTTP 503 and then chunks in progress
    for ever. *)
Definition forbidden : nat → answer (option dict) :=
  fun _ => Fail (HttpError 403).

Definition progress_then_ok (n : nat) (id : value) : nat → answer (option dict) :=
  fun i => if (i <? n)%nat then Ok None else Ok (Some {[ "id" := id ]}).

Definition hiccup_then_progress : nat → answer (option dict) :=
  fun i => match i with O => Fail (HttpError 503) | S _ => Ok None end.

(** Google as met with stored credentials [c]: refreshing fails, the
    interactive consent would succeed, and so would [build]. *)
Definition good : YouTubeUploader.credentials :=
  YouTubeUploader.mkCredentials true false true.

Definition stale : YouTubeUploader.credentials :=
  YouTubeUploader.mkCredentials false true true.

Definition google_with (c : YouTubeUploader.credentials) : YouTubeUploader.Google := {|
  YouTubeUploader.pickle_load := Ok c;
  YouTubeUploader.refresh := fun _ => Fail RequestException;
  YouTubeUploader.run_local_server := Ok good;
  YouTubeUploader.build := fun _ => Ok ()
|}.

(** A disk with stored credentials and client secrets, and one with
    client secrets only. *)
Definition signed_in_disk : World :=
  mkWorld {[ "youtube_credentials.pkl" := FRaw; "client_secrets.json" := FRaw;
             "videos/short.mp4" := FRaw ]} [] 0.

Definition secrets_only_disk : World :=
  mkWorld {[ "client_secrets.json" := FRaw ]} [] 0.

(** A network where official-joke-api answers with a JSON list,
    jokeapi.dev is down and icanhazdadjoke answers with [data]; the
    sources are asked in the order of the list. *)
Definition patchy_network (data : dict) : string → answer value := fun url =>
  if String.eqb url ScriptGenerator.official_joke_api then Ok (VList [])
  else if String.eqb url ScriptGenerator.icanhazdadjoke then Ok (VDict data)
  else Fail RequestException.

(** The same environment, with [open(path, 'w')] failing for the one
    [path]. *)
Definition unwritable (path : string) (env : Env) : Env := {|
  str_other := str_other env;
  now_iso := now_iso env;
  now_strftime := now_strftime env;
  can_write := fun p => negb (String.eqb p path) && can_write env p;
  http_get_json := http_get_json env;
  shuffle := shuffle env;
  rand := rand env;
  coin := coin env;
  lib_ok := lib_ok env;
  text_width := text_width env;
  pil_available := pil_available env;
  next_chunk := next_chunk env
|}.

(** The script that the renderers are tried on when run as programs. *)
Definition test_script : dict :=
  mkdict [("script", VStr "Why don't scientists trust atoms? Because they make up everything!");
          ("setup", VStr "Why don't scientists trust atoms?");
          ("punchline", VStr "Because they make up everything!");
          ("type", VStr "dad_joke");
          ("duration", VInt 8);
          ("topic", VStr "science humor")].

(** Media libraries reduced to the bare minimum: a plain colour clip, an
    unstyled text clip, compositing and writing work; the gradient file,
    styled text, the emoji clip and everything else fail. *)
Definition bare_media (env : Env) : Env := {|
  str_other := str_other env;
  now_iso := now_iso env;
  now_strftime := now_strftime env;
  can_write := can_write env;
  http_get_json := http_get_json env;
  shuffle := shuffle env;
  rand := rand env;
  coin := true;
  lib_ok := fun c =>
    match c with
    | NewColorClip | NewTextClip false _ | NewComposite | WriteVideofile => true
    | _ => false
    end;
  text_width := text_width env;
  pil_available := pil_available env;
  next_chunk := next_chunk env
|}.

End Cases.

(** * Properties *)

(** ** Configuration: dotted-path set and get *)

Section ConfigFacts.

Lemma split_on_go_nonempty sep cur s : split_on_go sep cur s ≠ [].
Proof.
  revert cur. induction s as [|c s IH]; intros cur; simpl; [done|].
  destruct (Ascii.eqb c sep); [done | apply IH].
Qed.

Lemma split_on_nonempty sep s : split_on sep s ≠ [].
Proof. apply split_on_go_nonempty. Qed.

(** Setting along a path whose intermediate keys are absent or dicts
    succeeds, and reading the same path back finds the value. *)
Lemma set_keys_get_keys keys val config default :
  keys ≠ [] →
  Config.intermediate_ok keys config →
  ∃ config', Config.set_keys keys val config = Return config'
             ∧ Config.get_keys keys (VDict config') default = val.
Proof.
  revert config. induction keys as [|key keys IH]; intros config Hne Hok; [done|].
  destruct keys as [|key' keys].
  - eexists; split; [reflexivity|]. simpl. by rewrite lookup_insert_eq.
  - assert (∃ sub, (match config !! key with Some c => c | None => VDict ∅ end)
                   = VDict sub ∧ Config.intermediate_ok (key' :: keys) sub)
      as (sub & Hsub & Hok').
    { simpl in Hok. destruct (config !! key) as [[]|] eqn:E; try done.
      - eauto.
      - exists ∅. split; [done|]. destruct keys; simpl; [done|].
        by rewrite lookup_empty. }
    destruct (IH sub) as (sub' & Hset & Hget); [done | done |].
    exists (<[key := VDict sub']> config). split.
    + change (Config.set_keys (key :: key' :: keys) val config)
        with (match (match config !! key with Some c => c | None => VDict ∅ end) with
              | VDict sub0 =>
                  sub1 ← Config.set_keys (key' :: keys) val sub0;
                  Return (<[key := VDict sub1]> config)
              | _ => Raise TypeError
              end).
      rewrite Hsub, Hset. reflexivity.
    + change (Config.get_keys (key :: key' :: keys)
                (VDict (<[key := VDict sub']> config)) default)
        with (match <[key := VDict sub']> config !! key with
              | Some v => Config.get_keys (key' :: keys) v default
              | None => default
              end).
      rewrite lookup_insert_eq. exact Hget.
Qed.

(** [save_config] never raises and leaves the object alone. *)
Lemma save_config_returns env self w :
  ∃ w', Config.save_config env self w = (Return (), w').
Proof.
  unfold Config.save_config, try_catch, write_json.
  destruct (can_write env _); eauto.
Qed.

End ConfigFacts.

(** C10. For every configuration, every dotted path whose intermediate
    keys are absent or bound to dictionaries, and every value [val]:
    [set(path, val)] returns, and [get(path)] on the configuration it
    leaves then returns [val]. *)
Theorem config_set_get_roundtrip env self key_path val default w :
  Config.intermediate_ok (split_on "." key_path) (Config.settings self) →
  ∃ self' w',
    Config.set env self key_path val w = (Return self', w')
    ∧ Config.get self' key_path default = val.
Proof.
  intros Hok.
  destruct (set_keys_get_keys (split_on "." key_path) val (Config.settings self) default)
    as (config' & Hset & Hget); [apply split_on_nonempty | done |].
  destruct (save_config_returns env (Config.mk (Config.config_file self) config') w)
    as (w' & Hsave).
  exists (Config.mk (Config.config_file self) config'), w'. split; [|exact Hget].
  unfold Config.set, mbind, M_bind, lift. rewrite Hset. simpl.
  rewrite Hsave. reflexivity.
Qed.

Lemma config_set_get_roundtrip_witness :
  ∃ self' w',
    Config.set (Scenario.offline (Scenario.always_fails 503)) Scenario.sample_config
               "automation.upload_privacy" (VStr "unlisted") Scenario.empty_disk
      = (Return self', w')
    ∧ Config.get self' "automation.upload_privacy" VNone = VStr "unlisted".
Proof.
  apply (config_set_get_roundtrip _ Scenario.sample_config
           "automation.upload_privacy" (VStr "unlisted") VNone Scenario.empty_disk).
  vm_compute. exact I.
Defined.

(** ** The uploader: retries, backoff, and the upload log *)

Section UploaderFacts.

Import YouTubeUploader Spec.

Variable env : Env.

(** One turn of the loop on a retriable HTTP error. *)
Lemma resumable_loop_retriable fuel error retry w status :
  next_chunk env (chunks w) = Fail (HttpError status) →
  retriable status = true →
  resumable_loop env (S fuel) error retry w =
    if retry + 1 >? 3 then (Return VNone, bump w)
    else resumable_loop env fuel (Some status) (retry + 1)
           (nap (2 ^ (retry + 1)) (bump w)).
Proof.
  intros Hc Hr. simpl.
  unfold mbind, M_bind, try_catch, call_next_chunk. rewrite Hc. simpl.
  rewrite Hr. unfold mret, M_ret. simpl.
  destruct (retry + 1 >? 3); reflexivity.
Qed.

(** One turn of the loop on a response that carries an id. *)
Lemma resumable_loop_response fuel error retry w response id :
  next_chunk env (chunks w) = Ok (Some response) →
  response !! "id" = Some id →
  resumable_loop env (S fuel) error retry w = (Return id, bump w).
Proof.
  intros Hc Hid. simpl.
  unfold mbind, M_bind, try_catch, call_next_chunk. rewrite Hc. simpl.
  unfold has_key. rewrite bool_decide_true by (rewrite Hid; eauto).
  unfold lift, getitem. rewrite Hid. reflexivity.
Qed.

(** The loop touches neither the disk nor anything but its own
    counters. *)
Lemma resumable_loop_files fuel : ∀ error retry w o w',
  resumable_loop env fuel error retry w = (o, w') → files w' = files w.
Proof.
  induction fuel as [|fuel IH]; intros error retry w o w' H.
  - by inversion H.
  - simpl in H. unfold mbind, M_bind, try_catch, call_next_chunk in H.
    destruct (next_chunk env (chunks w)) as [[response|]|e]; simpl in H.
    + destruct (has_key response "id"); simpl in H.
      * unfold lift, getitem in H.
        destruct (response !! "id"); simpl in H; by inversion H.
      * by inversion H.
    + destruct error as [st|].
      * destruct (retry + 1 >? 3); [by inversion H|].
        apply IH in H. exact H.
      * apply IH in H. exact H.
    + destruct e; simpl in H; try (by inversion H).
      destruct (retriable status); simpl in H; [|by inversion H].
      destruct (retry + 1 >? 3); [by inversion H|].
      apply IH in H. exact H.
Qed.


(** [k] retriable errors in a row, then a response with an id: the
    loop returns the id after sleeping [backoffs retry k]. *)
Lemma resumable_loop_recovers status response id :
  retriable status = true →
  response !! "id" = Some id →
  ∀ k fuel error retry w,
    (k < fuel)%nat →
    retry + Z.of_nat k ≤ 3 →
    (∀ i, (i < k)%nat → next_chunk env (chunks w + i) = Fail (HttpError status)) →
    next_chunk env (chunks w + k) = Ok (Some response) →
    resumable_loop env fuel error retry w =
      (Return id, mkWorld (files w) (slept w ++ backoffs retry k)
                          (chunks w + k + 1)).
Proof.
  intros Hr Hid. induction k as [|k IH]; intros fuel error retry w Hf Hle Hfail Hok.
  - destruct fuel as [|fuel]; [lia|].
    rewrite Nat.add_0_r in Hok.
    rewrite (resumable_loop_response _ _ _ _ response id) by done.
    unfold bump. simpl. rewrite app_nil_r. do 2 f_equal. lia.
  - destruct fuel as [|fuel]; [lia|].
    rewrite (resumable_loop_retriable _ _ _ _ status); [|by rewrite <- (Hfail 0%nat), Nat.add_0_r by lia|done].
    replace (retry + 1 >? 3) with false by lia.
    rewrite IH.
    + simpl. rewrite <- app_assoc. simpl. do 2 f_equal. lia.
    + lia.
    + lia.
    + intros i Hi. simpl. rewrite <- (Hfail (S i)) by lia. f_equal. lia.
    + simpl. rewrite <- Hok. f_equal. lia.
Qed.

(** Retriable errors on every call: with the counter at [retry], the
    loop gives up after [3 - retry] sleeps and one more call. *)
Lemma resumable_loop_gives_up status :
  retriable status = true →
  (∀ i, next_chunk env i = Fail (HttpError status)) →
  ∀ k fuel error retry w,
    (k < fuel)%nat →
    retry + Z.of_nat k = 3 →
    resumable_loop env fuel error retry w =
      (Return VNone, mkWorld (files w) (slept w ++ backoffs retry k)
                             (chunks w + k + 1)).
Proof.
  intros Hr Hfail. induction k as [|k IH]; intros fuel error retry w Hf Hle.
  - destruct fuel as [|fuel]; [lia|].
    rewrite (resumable_loop_retriable _ _ _ _ status) by done.
    replace (retry + 1 >? 3) with true by lia.
    unfold bump. simpl. rewrite app_nil_r. do 2 f_equal. lia.
  - destruct fuel as [|fuel]; [lia|].
    rewrite (resumable_loop_retriable _ _ _ _ status) by done.
    replace (retry + 1 >? 3) with false by lia.
    rewrite IH by lia.
    simpl. rewrite <- app_assoc. simpl. do 2 f_equal. lia.
Qed.

(** Saving the record never raises; the log file becomes [log_with]
    of what it was when it can be written, and stays otherwise. *)
Lemma save_upload_metadata_spec video_id video_path title description tags w :
  ∃ w',
    _save_upload_metadata env video_id video_path title description tags w
      = (Return (), w')
    ∧ slept w' = slept w ∧ chunks w' = chunks w
    ∧ (∀ p, p ≠ uploads_log_path → files w' !! p = files w !! p)
    ∧ files w' !! uploads_log_path =
        if can_write env uploads_log_path
        then log_with (upload_record env video_id video_path title description tags)
                      (files w !! uploads_log_path)
        else files w !! uploads_log_path.
Proof.
  unfold _save_upload_metadata, try_catch, mbind, M_bind, path_exists,
    read_json, write_json, lift, mret, M_ret.
  destruct (files w !! uploads_log_path) as [f|] eqn:Hlog; simpl.
  - rewrite ?Hlog.
    destruct f as [v| | | |]; simpl;
      try (eexists; split; [reflexivity|]; repeat split; try done;
           by destruct (can_write env uploads_log_path)).
    destruct v; simpl;
      try (eexists; split; [reflexivity|]; repeat split; try done;
           by destruct (can_write env uploads_log_path)).
    destruct (can_write env uploads_log_path); simpl.
    + eexists; split; [reflexivity|]. simpl. repeat split; try done.
      * intros p Hp. by rewrite lookup_insert_ne.
      * by rewrite lookup_insert_eq.
    + eexists; split; [reflexivity|]. by repeat split.
  - rewrite ?Hlog. simpl.
    destruct (can_write env uploads_log_path); simpl.
    + eexists; split; [reflexivity|]. simpl. repeat split; try done.
      * intros p Hp. by rewrite lookup_insert_ne.
      * by rewrite lookup_insert_eq.
    + eexists; split; [reflexivity|]. by repeat split.
Qed.


(** Past its guards, [upload_video] is the loop followed by the save. *)
Lemma upload_video_ready self fuel video_path title description tags w :
  ready env self video_path w →
  upload_video env self fuel video_path title description tags w =
    match resumable_loop env fuel None 0 w with
    | (Return video_id, w1) =>
        if truthy video_id
        then (Return video_id,
              (_save_upload_metadata env video_id video_path title description
                                     tags w1).2)
        else (Return VNone, w1)
    | (Raise _, w1) => (Return VNone, w1)
    | (OutOfFuel, w1) => (OutOfFuel, w1)
    end.
Proof.
  intros (Hy & [f Hf] & Hm & Hi).
  unfold upload_video, try_catch, mbind, M_bind, path_exists, lift, lib,
    _resumable_upload, mret, M_ret.
  rewrite Hy. simpl. rewrite Hf. simpl. rewrite Hm, Hi. simpl.
  destruct (resumable_loop env fuel None 0 w) as [[video_id|e|] w1]; try done.
  destruct (truthy video_id); [|done].
  destruct (save_upload_metadata_spec video_id video_path title description tags w1)
    as (w' & -> & _). reflexivity.
Qed.

(** Short of its guards, [upload_video] returns [None] at once. *)
Lemma upload_video_not_ready self fuel video_path title description tags w :
  ¬ ready env self video_path w →
  upload_video env self fuel video_path title description tags w
    = (Return VNone, w).
Proof.
  intros Hn.
  unfold upload_video, try_catch, mbind, M_bind, path_exists, lift, lib,
    mret, M_ret.
  destruct (youtube self) eqn:Hy; simpl; [|done].
  destruct (files w !! video_path) as [f|] eqn:Hf; simpl; [|done].
  destruct (lib_ok env NewMediaFileUpload) eqn:Hm; simpl; [|done].
  destruct (lib_ok env NewInsertRequest) eqn:Hi; simpl; [|done].
  exfalso. apply Hn. unfold ready. rewrite Hf. eauto.
Qed.

Lemma ready_dec self video_path w :
  ready env self video_path w ∨ ¬ ready env self video_path w.
Proof.
  unfold ready.
  destruct (youtube self); [|right; intros (? & _); done].
  destruct (files w !! video_path); [|right; intros (_ & [? ?] & _); done].
  destruct (lib_ok env NewMediaFileUpload); [|right; intros (_ & _ & ? & _); done].
  destruct (lib_ok env NewInsertRequest); [|right; intros (_ & _ & _ & ?); done].
  left. eauto.
Qed.

End UploaderFacts.

(** C2 (as the code has it). On a transient server error (HTTP 500,
    502, 503 or 504) the chunk is asked for again after a sleep of
    [2 ** retry] seconds, [retry] counting the retries from 1.  So when
    the transport fails [k] times (at most 3) with such a status and then
    answers with an id, [upload_video] returns that id after exactly [k]
    sleeps of 2, 4, ... seconds; after two failures the sleeps are 2 and
    4 seconds. *)
Theorem upload_recovers_after_transient_errors
    env self fuel video_path title description tags w k status response id :
  Spec.ready env self video_path w →
  YouTubeUploader.retriable status = true →
  (k ≤ 3)%nat → (k < fuel)%nat →
  (∀ i, (i < k)%nat → next_chunk env (chunks w + i) = Fail (HttpError status)) →
  next_chunk env (chunks w + k) = Ok (Some response) →
  response !! "id" = Some id →
  truthy id = true →
  ∃ w',
    YouTubeUploader.upload_video env self fuel video_path title description tags w
      = (Return id, w')
    ∧ slept w' = slept w ++ Spec.backoffs 0 k
    ∧ chunks w' = (chunks w + k + 1)%nat
    ∧ (k = 2%nat → slept w' = slept w ++ [2; 4]).
Proof.
  intros Hready Hr Hk Hfuel Hfail Hok Hid Ht.
  rewrite upload_video_ready by done.
  rewrite (resumable_loop_recovers env status response id Hr Hid k) by (done || lia).
  rewrite Ht.
  destruct (save_upload_metadata_spec env id video_path title description tags
              (mkWorld (files w) (slept w ++ Spec.backoffs 0 k) (chunks w + k + 1)))
    as (w' & Hsave & Hslept & Hchunks & _).
  rewrite Hsave. exists w'. simpl in *.
  repeat split; try done.
  intros ->. exact Hslept.
Qed.

Lemma upload_recovers_after_transient_errors_witness :
  ∃ w',
    YouTubeUploader.upload_video
      (Scenario.offline (Scenario.fails_then_ok 2 503 (VStr "abc123")))
      (YouTubeUploader.mk true) 3 "videos/short.mp4" "title" "description" ["funny"]
      Scenario.fresh_disk
      = (Return (VStr "abc123"), w')
    ∧ slept w' = slept Scenario.fresh_disk ++ Spec.backoffs 0 2
    ∧ chunks w' = (chunks Scenario.fresh_disk + 2 + 1)%nat
    ∧ (2%nat = 2%nat → slept w' = slept Scenario.fresh_disk ++ [2; 4]).
Proof.
  apply (upload_recovers_after_transient_errors
           (Scenario.offline (Scenario.fails_then_ok 2 503 (VStr "abc123")))
           (YouTubeUploader.mk true) 3 "videos/short.mp4" "title" "description"
           ["funny"] Scenario.fresh_disk 2 503 {[ "id" := VStr "abc123" ]}
           (VStr "abc123")).
  - unfold Spec.ready. simpl. repeat split; try reflexivity. eexists. reflexivity.
  - reflexivity.
  - lia.
  - lia.
  - intros i Hi. simpl. unfold Scenario.fails_then_ok.
    destruct (Nat.ltb_spec i 2); [reflexivity | lia].
  - reflexivity.
  - reflexivity.
  - reflexivity.
Defined.

(** C2, the claim as written, fails: with HTTP 503 twice and then a
    response carrying id "abc123", the upload returns "abc123" after
    two sleeps of 2 and 4 seconds, 6 seconds in all and not 3. *)
Lemma upload_503_twice_sleeps_six_seconds :
  let r := YouTubeUploader.upload_video
             (Scenario.offline (Scenario.fails_then_ok 2 503 (VStr "abc123")))
             (YouTubeUploader.mk true) 3 "videos/short.mp4" "title" "description"
             ["funny"] Scenario.fresh_disk in
  r.1 = Return (VStr "abc123")
  ∧ slept r.2 = [2; 4]
  ∧ foldr Z.add 0 (slept r.2) ≠ 3.
Proof. vm_compute. repeat split; congruence. Qed.

(** C3. When the transport answers HTTP 503 to every call, [upload_video]
    returns [None] and raises nothing, whatever state it starts from;
    past its guards it does so after exactly three retries, with sleeps
    of 2, 4 and 8 seconds and four calls of [next_chunk] in all.  No
    file is touched. *)
Theorem upload_gives_up_after_three_retries
    env self fuel video_path title description tags w :
  (∀ i, next_chunk env i = Fail (HttpError 503)) →
  (4 ≤ fuel)%nat →
  ∃ w',
    YouTubeUploader.upload_video env self fuel video_path title description tags w
      = (Return VNone, w')
    ∧ files w' = files w
    ∧ (Spec.ready env self video_path w →
       slept w' = slept w ++ [2; 4; 8] ∧ chunks w' = (chunks w + 4)%nat).
Proof.
  intros Hfail Hfuel.
  destruct (ready_dec env self video_path w) as [Hready | Hnot].
  - rewrite upload_video_ready by done.
    rewrite (resumable_loop_gives_up env 503 eq_refl Hfail 3) by (done || lia).
    simpl. eexists. split; [reflexivity|]. simpl. repeat split. lia.
  - rewrite upload_video_not_ready by done.
    exists w. repeat split; done.
Qed.

Lemma upload_gives_up_after_three_retries_witness :
  ∃ w',
    YouTubeUploader.upload_video (Scenario.offline (Scenario.always_fails 503))
      (YouTubeUploader.mk true) 4 "videos/short.mp4" "title" "description" ["funny"]
      Scenario.fresh_disk
      = (Return VNone, w')
    ∧ files w' = files Scenario.fresh_disk
    ∧ (Spec.ready (Scenario.offline (Scenario.always_fails 503))
         (YouTubeUploader.mk true) "videos/short.mp4" Scenario.fresh_disk →
       slept w' = slept Scenario.fresh_disk ++ [2; 4; 8]
       ∧ chunks w' = (chunks Scenario.fresh_disk + 4)%nat).
Proof.
  apply (upload_gives_up_after_three_retries
           (Scenario.offline (Scenario.always_fails 503))
           (YouTubeUploader.mk true) 4 "videos/short.mp4" "title" "description"
           ["funny"] Scenario.fresh_disk).
  - intros i. reflexivity.
  - lia.
Defined.

(** C9 (as the code has it). After an upload that succeeded, that is,
    [upload_video] returned an id: when the log file can be written and
    is absent, it now holds the list of the one new record; when it can
    be written and holds a JSON list, it now holds that list with the
    one new record after it, the earlier records as they were; when it
    cannot be written, or holds anything else, it is left as it was.
    No other file changes. *)
Theorem successful_upload_appends_one_record
    env self fuel video_path title description tags w id w' :
  YouTubeUploader.upload_video env self fuel video_path title description tags w
    = (Return id, w') →
  truthy id = true →
  let record :=
    YouTubeUploader.upload_record env id video_path title description tags in
  let log := YouTubeUploader.uploads_log_path in
  (can_write env log = true → files w !! log = None →
   files w' !! log = Some (FJson (VList [record])))
  ∧ (∀ old, can_write env log = true → files w !! log = Some (FJson (VList old)) →
     files w' !! log = Some (FJson (VList (old ++ [record]))))
  ∧ (can_write env log = false
     ∨ (∃ f, files w !! log = Some f ∧ ∀ old, f ≠ FJson (VList old)) →
     files w' !! log = files w !! log)
  ∧ (∀ p, p ≠ log → files w' !! p = files w !! p).
Proof.
  intros Hup Ht record log.
  destruct (ready_dec env self video_path w) as [Hready | Hnot];
    [|rewrite upload_video_not_ready in Hup by done; by inversion Hup; subst].
  rewrite upload_video_ready in Hup by done.
  destruct (YouTubeUploader.resumable_loop env fuel None 0 w)
    as [[video_id|e|] w1] eqn:Hloop;
    [|by inversion Hup; subst|by inversion Hup].
  apply resumable_loop_files in Hloop.
  destruct (truthy video_id) eqn:Ht'; [|by inversion Hup; subst].
  destruct (save_upload_metadata_spec env video_id video_path title description
              tags w1) as (w2 & Hsave & _ & _ & Hother & Hlog).
  rewrite Hsave in Hup. simpl in Hup. inversion Hup; subst video_id w2; clear Hup.
  rewrite Hloop in Hlog. fold record log in Hlog.
  repeat split.
  - intros Hw Hnone. by rewrite Hlog, Hw, Hnone.
  - intros old Hw Hold. by rewrite Hlog, Hw, Hold.
  - intros [Hw | (f & Hf & Hno)]; rewrite Hlog.
    + by rewrite Hw.
    + destruct (can_write env log); [|done]. rewrite Hf. simpl.
      destruct f as [v| | | |]; try done. destruct v; try done.
      by destruct (Hno l).
  - intros p Hp. rewrite Hother by done. by rewrite Hloop.
Qed.

Lemma successful_upload_appends_one_record_witness :
  let env := Scenario.offline (Scenario.fails_then_ok 0 503 (VStr "abc123")) in
  let r := YouTubeUploader.upload_video env (YouTubeUploader.mk true) 1
             "videos/short.mp4" "title" "description" ["funny"] Scenario.used_disk in
  files r.2 !! "uploads_log.json" =
    Some (FJson (VList ([Scenario.earlier_record] ++
            [YouTubeUploader.upload_record env (VStr "abc123") "videos/short.mp4"
               "title" "description" ["funny"]]))).
Proof.
  intros env r.
  destruct (successful_upload_appends_one_record env (YouTubeUploader.mk true) 1
              "videos/short.mp4" "title" "description" ["funny"] Scenario.used_disk
              (VStr "abc123") r.2) as (_ & Happend & _).
  - vm_compute. reflexivity.
  - reflexivity.
  - apply (Happend [Scenario.earlier_record]); reflexivity.
Defined.

(** C9, the claim as written, fails: on a disk whose log file is no
    JSON text the upload succeeds and returns its id, and the log is
    left as it was, no record appended. *)
Lemma successful_upload_without_record :
  let r := YouTubeUploader.upload_video
             (Scenario.offline (Scenario.fails_then_ok 0 503 (VStr "abc123")))
             (YouTubeUploader.mk true) 1 "videos/short.mp4" "title" "description"
             ["funny"] Scenario.damaged_log_disk in
  r.1 = Return (VStr "abc123")
  ∧ files r.2 !! "uploads_log.json" = Some FRaw
  ∧ files r.2 = files Scenario.damaged_log_disk.
Proof. split; [|split]; vm_compute; reflexivity. Qed.

(** ** The orchestrator *)

(** C4. In every run, whatever the collaborators are: when script
    generation returns [None], or when it returns a script and rendering
    returns [None], [daily_automation] returns [False] and no stage it
    invoked is the upload.  The stages invoked are script generation
    alone when that returned [None], and script generation and rendering
    when rendering did; the state is the one the last stage left. *)
Theorem failed_stage_short_circuits
    env generate_funny_script create_video uploader_upload_video r :
  let run := Main.daily_automation env generate_funny_script create_video
               uploader_upload_video r in
  let generated := generate_funny_script (Main.world r) in
  (generated.1 = Return None
   ∨ (∃ script_data, generated.1 = Return (Some script_data)
                     ∧ (create_video script_data generated.2).1 = Return None) →
   run.1 = Return false
   ∧ ∃ evs, Main.trace run.2 = Main.trace r ++ evs
            ∧ Forall (λ ev, Main.is_upload ev = false) evs)
  ∧ (generated.1 = Return None →
     run = (Return false,
            Main.mkRun generated.2 (Main.trace r ++ [Main.GenerateScript])))
  ∧ (∀ script_data,
       generated.1 = Return (Some script_data) →
       truthy (VDict script_data) = true →
       (create_video script_data generated.2).1 = Return None →
       run = (Return false,
              Main.mkRun (create_video script_data generated.2).2
                (Main.trace r ++ [Main.GenerateScript; Main.CreateVideo script_data]))).
Proof.
  intros run generated. subst run generated.
  unfold Main.daily_automation, Main.generate_content, try_catch, mbind, M_bind,
    Main.invoke.
  destruct (generate_funny_script (Main.world r)) as [o w1]. simpl.
  split; [intros Hnone; split | split].
  - destruct Hnone as [-> | (script_data & -> & Hvid)]; [reflexivity|].
    simpl. destruct (bool_decide (script_data = ∅)); simpl; [reflexivity|].
    destruct (create_video script_data w1) as [o2 w2]. simpl in Hvid. by subst o2.
  - destruct Hnone as [-> | (script_data & -> & Hvid)]; simpl.
    { exists [Main.GenerateScript]. split; [reflexivity|]. by repeat constructor. }
    destruct (bool_decide (script_data = ∅)); simpl.
    + exists [Main.GenerateScript]. split; [reflexivity|]. by repeat constructor.
    + destruct (create_video script_data w1) as [o2 w2]. simpl in Hvid. subst o2.
      simpl. exists [Main.GenerateScript; Main.CreateVideo script_data].
      split; [by rewrite <- app_assoc | by repeat constructor].
  - by intros ->.
  - intros script_data -> Ht Hvid. simpl in *.
    destruct (bool_decide (script_data = ∅)); [done|]. simpl.
    destruct (create_video script_data w1) as [o2 w2]. simpl in Hvid. subst o2.
    simpl. by rewrite <- app_assoc.
Qed.

Lemma failed_stage_short_circuits_witness :
  let unwritable := Scenario.readonly (Scenario.offline (Scenario.always_fails 503)) in
  let unrenderable :=
    Scenario.broken_media (Scenario.offline (Scenario.always_fails 503)) in
  let run env := Main.automation env true (YouTubeUploader.mk true) 4
                   (Main.mkRun Scenario.fresh_disk []) in
  ((run unwritable).1 = Return false
   ∧ ∃ evs, Main.trace (run unwritable).2 = [] ++ evs
            ∧ Forall (λ ev, Main.is_upload ev = false) evs)
  ∧ ((run unrenderable).1 = Return false
     ∧ ∃ evs, Main.trace (run unrenderable).2 = [] ++ evs
              ∧ Forall (λ ev, Main.is_upload ev = false) evs).
Proof.
  intros unwritable unrenderable run. split.
  - apply (failed_stage_short_circuits unwritable
             (ScriptGenerator.generate_funny_script unwritable)
             (VideoCreator.create_video unwritable)
             (YouTubeUploader.upload_video unwritable (YouTubeUploader.mk true) 4)
             (Main.mkRun Scenario.fresh_disk [])).
    left. vm_compute. reflexivity.
  - apply (failed_stage_short_circuits unrenderable
             (ScriptGenerator.generate_funny_script unrenderable)
             (VideoCreator.create_video unrenderable)
             (YouTubeUploader.upload_video unrenderable (YouTubeUploader.mk true) 4)
             (Main.mkRun Scenario.fresh_disk [])).
    right. eexists. split; reflexivity.
Defined.

(** ** Script formatting and enrichment *)

Section ScriptFacts.

Import ScriptGenerator Spec.

Lemma eq_str_true v s : eq_str v s = true ↔ v = VStr s.
Proof.
  destruct v; simpl; try (split; [done | intros [=]]).
  rewrite String.eqb_eq. split; [by intros -> | by intros [= ->]].
Qed.





End ScriptFacts.



(** ** Normalizing the responses of the joke endpoints *)

Section NormalizeFacts.

Import ScriptGenerator Spec.

Lemma append_space_nonempty a b : a +:+ " " +:+ b ≠ "".
Proof. by destruct a. Qed.

(** A setup/punchline pair always formats to a dad joke whose script
    text is both parts around a space. *)
Lemma format_two_part env setup punchline :
  ∃ script_data,
    format_script env
      (mkdict [("setup", setup); ("punchline", punchline); ("type", VStr "dad_joke")])
      = Return script_data
    ∧ script_data !! "type" = Some (VStr "dad_joke")
    ∧ script_data !! "script"
      = Some (VStr (str env setup +:+ " " +:+ str env punchline)).
Proof. eexists. repeat split. Qed.

(** A single line always formats to a one-liner whose script is that
    line, whatever object it is. *)
Lemma format_single_line env joke :
  ∃ script_data,
    format_script env (mkdict [("joke", joke); ("type", VStr "one_liner")])
      = Return script_data
    ∧ script_data !! "type" = Some (VStr "one_liner")
    ∧ script_data !! "script" = Some joke.
Proof. eexists. repeat split. Qed.

Lemma parse_official data :
  parse_joke official_joke_api (VDict data) =
    Return (Some (mkdict [("setup", dict_get data "setup" (VStr ""));
                          ("punchline", dict_get data "punchline" (VStr ""));
                          ("type", VStr "dad_joke")])).
Proof. reflexivity. Qed.

Lemma parse_jokeapi data :
  parse_joke jokeapi_dev (VDict data) =
    if eq_str (dict_get data "type" VNone) "single"
    then Return (Some (mkdict [("joke", dict_get data "joke" (VStr ""));
                               ("type", VStr "one_liner")]))
    else Return (Some (mkdict [("setup", dict_get data "setup" (VStr ""));
                               ("punchline", dict_get data "delivery" (VStr ""));
                               ("type", VStr "dad_joke")])).
Proof.
  unfold parse_joke.
  change (contains "official-joke-api" jokeapi_dev) with false.
  change (contains "jokeapi.dev" jokeapi_dev) with true.
  cbv iota. simpl. by destruct (eq_str _ _).
Qed.

Lemma parse_icanhazdadjoke data :
  parse_joke icanhazdadjoke (VDict data) =
    Return (Some (mkdict [("joke", dict_get data "joke" (VStr ""));
                          ("type", VStr "one_liner")])).
Proof. reflexivity. Qed.

End NormalizeFacts.

(** C7 (as the code has it). For every response object of each
    endpoint, normalization followed by formatting returns a script with
    both fields set and a kind that is not empty.  A setup/punchline
    response (official-joke-api, and jokeapi.dev when the type is not
    "single") gives kind "dad_joke" and a script text that is not empty:
    the two parts around a space.  A single-line response (jokeapi.dev of
    type "single", icanhazdadjoke) gives kind "one_liner" and, as script,
    the joke field as it came, the empty text when the field is missing;
    so the script text is not empty exactly when the joke field is not. *)
Theorem normalized_script_and_kind env data :
  (∃ text, Spec.normalized env ScriptGenerator.official_joke_api data
             "dad_joke" (VStr text) ∧ text ≠ "")
  ∧ (dict_get data "type" VNone ≠ VStr "single" →
     ∃ text, Spec.normalized env ScriptGenerator.jokeapi_dev data
               "dad_joke" (VStr text) ∧ text ≠ "")
  ∧ (dict_get data "type" VNone = VStr "single" →
     Spec.normalized env ScriptGenerator.jokeapi_dev data
       "one_liner" (dict_get data "joke" (VStr "")))
  ∧ Spec.normalized env ScriptGenerator.icanhazdadjoke data
      "one_liner" (dict_get data "joke" (VStr ""))
  ∧ (∀ joke, data !! "joke" = Some (VStr joke) → joke ≠ "" →
     Spec.normalized env ScriptGenerator.icanhazdadjoke data "one_liner" (VStr joke)).
Proof.
  unfold Spec.normalized. repeat split.
  - destruct (format_two_part env (dict_get data "setup" (VStr ""))
                (dict_get data "punchline" (VStr ""))) as (sd & Hf & Ht & Hs).
    eexists. split; [|apply append_space_nonempty].
    eexists _, sd. rewrite parse_official. eauto.
  - intros Hty.
    destruct (format_two_part env (dict_get data "setup" (VStr ""))
                (dict_get data "delivery" (VStr ""))) as (sd & Hf & Ht & Hs).
    eexists. split; [|apply append_space_nonempty].
    eexists _, sd. rewrite parse_jokeapi.
    destruct (eq_str _ "single") eqn:E; [by apply eq_str_true in E|]. eauto.
  - intros Hty.
    destruct (format_single_line env (dict_get data "joke" (VStr "")))
      as (sd & Hf & Ht & Hs).
    eexists _, sd. rewrite parse_jokeapi, Hty. simpl. eauto.
  - destruct (format_single_line env (dict_get data "joke" (VStr "")))
      as (sd & Hf & Ht & Hs).
    eexists _, sd. rewrite parse_icanhazdadjoke. eauto.
  - intros joke Hj _.
    destruct (format_single_line env (VStr joke)) as (sd & Hf & Ht & Hs).
    eexists _, sd. rewrite parse_icanhazdadjoke. unfold dict_get. rewrite Hj. eauto.
Qed.

Lemma normalized_script_and_kind_witness :
  Spec.normalized (Scenario.offline (Scenario.always_fails 503))
    ScriptGenerator.icanhazdadjoke Scenario.joke_response "one_liner"
    (VStr "My dog used to chase people on a bike a lot. It got so bad I had to take his bike away.").
Proof.
  apply (normalized_script_and_kind (Scenario.offline (Scenario.always_fails 503))
           Scenario.joke_response); [reflexivity | done].
Defined.

(** C7, the claim as written, fails: a response of icanhazdadjoke whose
    joke text is empty is normalized and formatted to a script whose
    text is empty. *)
Lemma empty_joke_gives_empty_script :
  Spec.normalized (Scenario.offline (Scenario.always_fails 503))
    ScriptGenerator.icanhazdadjoke Scenario.empty_joke_response "one_liner" (VStr "").
Proof. eexists _, _. repeat split. Qed.

(** ** The renderers *)

Section RenderFacts.

Import VideoCreator Spec.

Lemma min_60_le x d : min_60 x = Return d → (d <= 60)%Q.
Proof.
  destruct x; simpl; intros [= <-].
  - destruct b; by apply Qle_bool_iff.
  - change 60%Q with (inject_Z 60). rewrite <- Zle_Qle. lia.
  - apply Q.le_min_r.
Qed.

(** A composed clip has the clamped duration and the size of a
    short. *)
Lemma create_video_from_script_duration env script_data video :
  create_video_from_script env script_data = Return (Some video) →
  min_60 (dict_get script_data "duration" (VInt 10)) = Return (duration video)
  ∧ size video = video_size.
Proof.
  unfold create_video_from_script, try_except, lib.
  destruct (min_60 _) as [d| |]; simpl; [|done..].
  destruct (if coin env then _ else _) as [background| |]; simpl; [|done..].
  destruct (getitem script_data "type") as [ty| |]; simpl; [|done..].
  destruct (if eq_str ty "dad_joke" && has_key script_data "setup" then _ else _)
    as [clips| |]; simpl; [|done..].
  destruct (lib_ok env NewComposite); simpl; [|done].
  destruct (truthy _); intros [= <-]; done.
Qed.

End RenderFacts.

(** C5 (as the code has it). The full renderer clamps: every video it
    writes has duration [min(requested, 60)], which is at most 60
    seconds, 10 being requested where the script names no duration.  The
    lite renderer has no clamp: the text file it falls back to records
    the requested duration as it is. *)
Theorem full_renderer_clamps_duration env script_data w :
  (∀ path w',
     VideoCreator.create_video env script_data w = (Return (Some path), w') →
     ∃ d, files w' !! path
            = Some (FVideo VideoCreator.video_size VideoCreator.video_fps d)
          ∧ VideoCreator.min_60 (dict_get script_data "duration" (VInt 10)) = Return d
          ∧ (d <= 60)%Q)
  ∧ (∀ path w',
       VideoCreatorLite.create_text_file env script_data w = (Return (Some path), w') →
       ∃ f, files w' !! path = Some f
            ∧ Spec.asset_duration f
              = Some (dict_get script_data "duration" (VStr "Unknown"))).
Proof.
  split.
  - intros path w'.
    unfold VideoCreator.create_video, try_catch, mbind, M_bind, lift, lib.
    destruct (VideoCreator.create_video_from_script env script_data)
      as [[video|]| |] eqn:Hv; simpl; try (intros [=]; done).
    apply create_video_from_script_duration in Hv as [Hd Hs].
    destruct (lib_ok env WriteVideofile); simpl; [|intros [=]; done].
    unfold write_file. destruct (can_write env _); simpl; [|intros [=]; done].
    intros [= <- <-]. exists (VideoCreator.duration video). simpl.
    rewrite lookup_insert_eq, Hs. split; [done|]. split; [done|].
    by apply min_60_le in Hd.
  - intros path w'.
    unfold VideoCreatorLite.create_text_file, try_catch, mbind, M_bind, write_file.
    destruct (can_write env _); simpl; [|intros [=]; done].
    intros [= <- <-]. eexists. simpl. rewrite lookup_insert_eq. split; reflexivity.
Qed.

Lemma full_renderer_clamps_duration_witness :
  let env := Scenario.offline (Scenario.always_fails 503) in
  ∃ d, files (VideoCreator.create_video env Scenario.long_script Scenario.empty_disk).2
         !! VideoCreator.output_path env
         = Some (FVideo VideoCreator.video_size VideoCreator.video_fps d)
       ∧ VideoCreator.min_60 (dict_get Scenario.long_script "duration" (VInt 10))
         = Return d
       ∧ (d <= 60)%Q.
Proof.
  intros env.
  apply (proj1 (full_renderer_clamps_duration env Scenario.long_script
                  Scenario.empty_disk)).
  vm_compute. reflexivity.
Defined.

(** C5, the claim as written, fails: without the imaging library the
    lite renderer answers a script that asks for 500 seconds with a text
    file that records a duration of 500, above 60. *)
Lemma lite_renderer_keeps_requested_duration :
  let env := Scenario.without_pil (Scenario.offline (Scenario.always_fails 503)) in
  let r := VideoCreatorLite.create_video env Scenario.long_script Scenario.empty_disk in
  ∃ f, r.1 = Return (Some (VideoCreatorLite.text_output_path env))
       ∧ files r.2 !! VideoCreatorLite.text_output_path env = Some f
       ∧ Spec.asset_duration f = Some (VInt 500)
       ∧ Spec.over_60 (VInt 500) = true.
Proof. eexists. vm_compute. repeat split. Qed.

(** C8. As the code is written, every text longer than 50 characters,
    the ones longer than 100 included, gets the font size reduced by 10
    and bounded below at 40: the branch for more than 100 characters
    comes second and is never taken.  A text of 101 characters at the
    default size 80 is set at 70, not at 60. *)
Theorem long_text_fontsize fontsize n :
  50 < n →
  VideoCreator.adjust_fontsize fontsize n = Z.max 40 (fontsize - 10).
Proof.
  intros Hn. unfold VideoCreator.adjust_fontsize.
  by replace (n >? 50) with true by lia.
Qed.

Lemma long_text_fontsize_witness :
  VideoCreator.adjust_fontsize VideoCreator.text_fontsize (len Scenario.text_101) = 70
  ∧ Z.max 30 (VideoCreator.text_fontsize - 20) = 60.
Proof.
  split; [|reflexivity].
  rewrite (long_text_fontsize VideoCreator.text_fontsize (len Scenario.text_101));
    [reflexivity | vm_compute; reflexivity].
Defined.

(** ** Fetching a script *)

Section FetchFacts.

Import ScriptGenerator Spec.

Variable env : Env.

Lemma parse_joke_no_fuel api_url data : parse_joke api_url data ≠ OutOfFuel.
Proof.
  unfold parse_joke, obj_get, mbind, outcome_bind.
  repeat case_match; done.
Qed.

Lemma parse_joke_well_formed api_url data joke_data :
  (∀ joke, data !! "joke" = Some joke → ∃ s, joke = VStr s) →
  parse_joke api_url (VDict data) = Return (Some joke_data) →
  well_formed_joke joke_data.
Proof.
  intros Htext.
  assert (∃ s, dict_get data "joke" (VStr "") = VStr s) as [s Hs].
  { unfold dict_get. destruct (data !! "joke") as [joke|] eqn:E; [eauto|].
    by exists "". }
  unfold parse_joke. simpl. rewrite Hs.
  repeat case_match; intros [= <-]; (by left; eauto) || (by right; eauto).
Qed.

Lemma fetch_joke_returns api_url :
  ∃ o, fetch_joke_from_api env api_url = Return o
       ∧ (jokes_are_text env → ∀ joke_data, o = Some joke_data →
          well_formed_joke joke_data).
Proof.
  unfold fetch_joke_from_api, try_except, mbind, outcome_bind, perform.
  destruct (http_get_json env api_url) as [data|e] eqn:Hget.
  - destruct (parse_joke api_url data) as [o|e|] eqn:Hp.
    + exists o. split; [done|]. intros Htext joke_data ->.
      destruct data; try (by unfold parse_joke in Hp; simpl in Hp;
                             repeat case_match).
      eapply parse_joke_well_formed; [|exact Hp].
      intros joke Hj. by eapply Htext.
    + by exists None.
    + by apply parse_joke_no_fuel in Hp.
  - by exists None.
Qed.

Lemma try_apis_returns apis :
  ∃ o, try_apis env apis = Return o
       ∧ (jokes_are_text env → ∀ joke_data, o = Some joke_data →
          well_formed_joke joke_data).
Proof.
  induction apis as [|api_url apis (o' & IH & Hwf')]; simpl.
  - by exists None.
  - destruct (fetch_joke_returns api_url) as (o & -> & Hwf). simpl.
    destruct (truthy_opt o); eauto.
Qed.

Lemma try_apis_all_fail apis :
  (∀ url, ∃ e, http_get_json env url = Fail e) →
  try_apis env apis = Return None.
Proof.
  intros Hfail. induction apis as [|api_url apis IH]; simpl; [done|].
  unfold fetch_joke_from_api. destruct (Hfail api_url) as [e ->]. simpl.
  exact IH.
Qed.

Lemma backup_joke_well_formed :
  ∃ joke_data,
    get_backup_joke env = Return joke_data
    ∧ backup_jokes !! (rand env `mod` 8)%nat = Some joke_data
    ∧ well_formed_joke joke_data.
Proof.
  unfold get_backup_joke, choice.
  change (length backup_jokes) with 8%nat.
  pose proof (Nat.mod_upper_bound (rand env) 8) as Hlt.
  destruct (rand env `mod` 8)%nat as [|[|[|[|[|[|[|[|n]]]]]]]];
    try lia; simpl; eexists; (split; [reflexivity|]); (split; [reflexivity|]);
    (by left; eauto) || (by right; eauto).
Qed.

(** A well-formed joke is formatted and enriched without an error, to
    a script whose text is a string. *)
Lemma well_formed_joke_generates joke_data :
  well_formed_joke joke_data →
  ∃ script_data enhanced text,
    format_script env joke_data = Return script_data
    ∧ enhance_script_for_video script_data = Return enhanced
    ∧ enhanced !! "script" = Some (VStr text).
Proof.
  intros [(setup & punchline & ->) | (joke & ->)];
    eexists _, _, _; repeat split.
Qed.

Lemma format_script_no_fuel joke_data : format_script env joke_data ≠ OutOfFuel.
Proof.
  unfold format_script, getitem, split_of, mbind, outcome_bind.
  repeat case_match; done.
Qed.

Lemma enhance_script_no_fuel script_data :
  enhance_script_for_video script_data ≠ OutOfFuel.
Proof.
  unfold enhance_script_for_video, getitem, mbind, outcome_bind.
  repeat case_match; done.
Qed.

Lemma finish_no_fuel joke_data w w' : finish env joke_data w ≠ (OutOfFuel, w').
Proof.
  unfold finish, mbind, M_bind, lift, write_json, getitem, slice_to, mret, M_ret.
  destruct (format_script env joke_data) as [sd|e|] eqn:Hf;
    [|done|by apply format_script_no_fuel in Hf].
  destruct (enhance_script_for_video sd) as [en|e|] eqn:He;
    [|done|by apply enhance_script_no_fuel in He].
  repeat case_match; done.
Qed.

Lemma finish_well_formed joke_data script_data enhanced text w :
  format_script env joke_data = Return script_data →
  enhance_script_for_video script_data = Return enhanced →
  enhanced !! "script" = Some (VStr text) →
  can_write env (script_filename env) = true →
  (finish env joke_data w).1 = Return (Some enhanced).
Proof.
  intros Hf He Hs Hw.
  unfold finish, mbind, M_bind, lift, write_json, getitem.
  by rewrite Hf, He, Hw, Hs.
Qed.

Lemma generate_funny_script_unfold w :
  generate_funny_script env w =
    try_catch
      (joke_data ← lift (get_joke_from_apis env);
       joke_data ← (match joke_data with
                    | Some d => if truthy (VDict d) then mret d
                                else lift (get_backup_joke env)
                    | None => lift (get_backup_joke env)
                    end);
       finish env joke_data)
      (fun _ => mret None) w.
Proof. reflexivity. Qed.


(** With the joke chosen, the call returns: the script if [finish]
    does, [None] if it raises. *)
Lemma generate_with_joke w o joke_data :
  get_joke_from_apis env = Return o →
  (match o with
   | Some d => if truthy (VDict d) then Return d else get_backup_joke env
   | None => get_backup_joke env
   end) = Return joke_data →
  (generate_funny_script env w).1 =
    match (finish env joke_data w).1 with
    | Raise _ => Return None
    | r => r
    end.
Proof.
  intros Hget Hpick. rewrite generate_funny_script_unfold.
  unfold try_catch, mbind at 1 2, M_bind, lift. rewrite Hget.
  destruct o as [d|].
  - destruct (truthy (VDict d)).
    + injection Hpick as ->. unfold mret, M_ret.
      by destruct (finish env joke_data w) as [[?|?|] ?].
    + rewrite Hpick. by destruct (finish env joke_data w) as [[?|?|] ?].
  - rewrite Hpick. by destruct (finish env joke_data w) as [[?|?|] ?].
Qed.

Lemma generate_returns w :
  ∃ r w', generate_funny_script env w = (Return r, w').
Proof.
  rewrite generate_funny_script_unfold.
  unfold try_catch, mbind at 1 2, M_bind, lift, get_joke_from_apis.
  destruct (try_apis_returns (shuffle env joke_apis)) as (o & -> & _).
  destruct backup_joke_well_formed as (backup & Hb & _).
  assert (∀ joke_data, ∃ r w',
             (let (o0, w'0) := finish env joke_data w in
              match o0 with
              | Return a => (Return a, w'0)
              | Raise _ => (Return None, w'0)
              | OutOfFuel => (OutOfFuel, w'0)
              end) = (Return r, w')) as Hfin.
  { intros joke_data. destruct (finish env joke_data w) as [[r|e|] w'] eqn:Hf; eauto.
    by apply finish_no_fuel in Hf. }
  destruct o as [d|]; [destruct (truthy (VDict d))|]; unfold mret, M_ret;
    rewrite ?Hb.
  - destruct (Hfin d) as (r & w' & Hr). exists r, w'. exact Hr.
  - destruct (Hfin backup) as (r & w' & Hr). exists r, w'. exact Hr.
  - destruct (Hfin backup) as (r & w' & Hr). exists r, w'. exact Hr.
Qed.

End FetchFacts.

(** C1 (as the code has it). [generate_funny_script] never raises: it
    always returns, a script or [None].  When every network source fails
    and the script file can be written, it returns the formatted and
    enriched record of one of the 8 backup jokes.  When the script file
    can be written and every joke text the network delivers is a string,
    it returns a script, not [None], whatever else the network does. *)
Theorem script_fetch_never_raises env w :
  (∃ r w', ScriptGenerator.generate_funny_script env w = (Return r, w'))
  ∧ ((∀ url, ∃ e, http_get_json env url = Fail e) →
     can_write env (ScriptGenerator.script_filename env) = true →
     ∃ joke_data script_data enhanced,
       ScriptGenerator.backup_jokes !! (rand env `mod` 8)%nat = Some joke_data
       ∧ ScriptGenerator.format_script env joke_data = Return script_data
       ∧ ScriptGenerator.enhance_script_for_video script_data = Return enhanced
       ∧ (ScriptGenerator.generate_funny_script env w).1 = Return (Some enhanced))
  ∧ (can_write env (ScriptGenerator.script_filename env) = true →
     Spec.jokes_are_text env →
     ∃ enhanced,
       (ScriptGenerator.generate_funny_script env w).1 = Return (Some enhanced)).
Proof.
  split; [apply generate_returns|]. split.
  - intros Hfail Hw.
    destruct (backup_joke_well_formed env) as (joke_data & Hb & Hnth & Hwf).
    destruct (well_formed_joke_generates env joke_data Hwf)
      as (script_data & enhanced & text & Hf & He & Hs).
    exists joke_data, script_data, enhanced. repeat split; try done.
    rewrite (generate_with_joke env w None joke_data);
      [|by apply try_apis_all_fail|done].
    by rewrite (finish_well_formed env _ _ _ _ w Hf He Hs Hw).
  - intros Hw Htext.
    destruct (try_apis_returns env (shuffle env ScriptGenerator.joke_apis))
      as (o & Hget & Hwf).
    destruct (backup_joke_well_formed env) as (backup & Hb & _ & Hbwf).
    assert (∃ joke_data,
               (match o with
                | Some d => if truthy (VDict d) then Return d
                            else ScriptGenerator.get_backup_joke env
                | None => ScriptGenerator.get_backup_joke env
                end) = Return joke_data
               ∧ Spec.well_formed_joke joke_data) as (joke_data & Hpick & Hjwf).
    { destruct o as [d|]; [destruct (truthy (VDict d))|]; eauto. }
    destruct (well_formed_joke_generates env joke_data Hjwf)
      as (script_data & enhanced & text & Hf & He & Hs).
    exists enhanced.
    rewrite (generate_with_joke env w o joke_data Hget Hpick).
    by rewrite (finish_well_formed env _ _ _ _ w Hf He Hs Hw).
Qed.

Lemma script_fetch_never_raises_witness :
  let env := Scenario.offline (Scenario.always_fails 503) in
  ∃ joke_data script_data enhanced,
    ScriptGenerator.backup_jokes !! (rand env `mod` 8)%nat = Some joke_data
    ∧ ScriptGenerator.format_script env joke_data = Return script_data
    ∧ ScriptGenerator.enhance_script_for_video script_data = Return enhanced
    ∧ (ScriptGenerator.generate_funny_script env Scenario.empty_disk).1
      = Return (Some enhanced).
Proof.
  intros env.
  apply (proj1 (proj2 (script_fetch_never_raises env Scenario.empty_disk))).
  - intros url. eexists. reflexivity.
  - reflexivity.
Defined.

(** C1, the claim as written, fails: the result is [None] when the
    script file cannot be written, the network being down; and it is
    [None] when the one source that answers delivers a joke that is
    [null], the file being writable. *)
Lemma script_fetch_returns_None :
  (ScriptGenerator.generate_funny_script
     (Scenario.readonly (Scenario.offline (Scenario.always_fails 503)))
     Scenario.empty_disk).1 = Return None
  ∧ (ScriptGenerator.generate_funny_script
       (Scenario.online (Scenario.offline (Scenario.always_fails 503))
          (Scenario.only_icanhazdadjoke Scenario.null_joke_response))
       Scenario.empty_disk).1 = Return None.
Proof. split; vm_compute; reflexivity. Qed.


(** ** The model at work *)

(** The sample text has 101 characters, and the full renderer sets it
    at size 70. *)
Example text_101_length : len Scenario.text_101 = 101.
Proof. reflexivity. Qed.

Example text_101_clip :
  VideoCreator.create_text_clip (Scenario.offline (Scenario.always_fails 503))
    (VStr Scenario.text_101) 0 6 "center" None
  = Return (VideoCreator.TextClip (VStr Scenario.text_101) 70 true "center" 0 6).
Proof. reflexivity. Qed.

(** A text of 51 to 100 characters is set at 70 as well, one of at most
    50 at the default 80. *)
Example fontsize_steps :
  VideoCreator.adjust_fontsize 80 50 = 80
  ∧ VideoCreator.adjust_fontsize 80 51 = 70
  ∧ VideoCreator.adjust_fontsize 80 100 = 70
  ∧ VideoCreator.adjust_fontsize 45 51 = 40.
Proof. repeat split. Qed.

(** Setting below a key that is bound to a string raises [TypeError]
    and changes nothing. *)
Example set_below_a_string :
  Config.set (Scenario.offline (Scenario.always_fails 503)) Scenario.sample_config
    "automation.daily_upload_time.hour" (VInt 10) Scenario.empty_disk
  = (Raise TypeError, Scenario.empty_disk).
Proof. reflexivity. Qed.

(** A joke of another kind gets half its word count as duration. *)
Example story_duration :
  ∃ script_data,
    ScriptGenerator.format_script (Scenario.offline (Scenario.always_fails 503))
      (mkdict [("type", VStr "story"); ("setup", VStr "A man walks into a bar.");
               ("punchline", VStr "Ouch!")])
    = Return script_data
    ∧ script_data !! "script" = Some (VStr "A man walks into a bar. Ouch!")
    ∧ script_data !! "duration" = Some (VInt 3).
Proof. eexists. repeat split. Qed.

(** A run in which every stage succeeds goes through the three stages
    and ends with one record in the upload log. *)
Example successful_run :
  let env := Scenario.offline (Scenario.fails_then_ok 0 503 (VStr "abc123")) in
  let run := Main.automation env false (YouTubeUploader.mk true) 1
               (Main.mkRun Scenario.empty_disk []) in
  run.1 = Return true
  ∧ length (Main.trace run.2) = 3%nat
  ∧ Main.is_upload <$> Main.trace run.2 = [false; false; true]
  ∧ ∃ record, files (Main.world run.2) !! "uploads_log.json"
              = Some (FJson (VList [record])).
Proof. vm_compute. repeat split. eexists. reflexivity. Qed.



(** * Further properties *)

(** ** Configuration: failure, frame, and loading *)

Section ConfigMoreFacts.

Import Notions.

Lemma set_keys_blocked keys val config :
  keys ≠ [] →
  ¬ Config.intermediate_ok keys config →
  Config.set_keys keys val config = Raise TypeError.
Proof.
  revert config. induction keys as [|key keys IH]; intros config Hne Hnot; [done|].
  destruct keys as [|key' keys]; [by destruct Hnot|].
  change (Config.set_keys (key :: key' :: keys) val config)
    with (match (match config !! key with Some c => c | None => VDict ∅ end) with
          | VDict sub0 =>
              sub1 ← Config.set_keys (key' :: keys) val sub0;
              Return (<[key := VDict sub1]> config)
          | _ => Raise TypeError
          end).
  simpl in Hnot.
  destruct (config !! key) as [c|]; [|by destruct Hnot].
  destruct c as [| | | | | |sub]; try done.
  rewrite IH; done.
Qed.

Lemma set_keys_cons key key' keys val config :
  Config.set_keys (key :: key' :: keys) val config =
    match (match config !! key with Some c => c | None => VDict ∅ end) with
    | VDict sub =>
        sub' ← Config.set_keys (key' :: keys) val sub;
        Return (<[key := VDict sub']> config)
    | _ => Raise TypeError
    end.
Proof. reflexivity. Qed.

Lemma set_keys_inserts key keys val config config' :
  Config.set_keys (key :: keys) val config = Return config' →
  ∃ x, config' = <[key := x]> config
       ∧ (∀ key2 keys2, keys = key2 :: keys2 →
          ∃ sub sub', (match config !! key with Some c => c | None => VDict ∅ end)
                      = VDict sub
                      ∧ Config.set_keys keys val sub = Return sub'
                      ∧ x = VDict sub').
Proof.
  destruct keys as [|key2 keys2].
  - simpl. intros [= <-]. eexists. split; [reflexivity | done].
  - rewrite set_keys_cons.
    destruct (match config !! key with Some c => c | None => VDict ∅ end)
      as [| | | | | |sub]; try done.
    destruct (Config.set_keys (key2 :: keys2) val sub) as [sub'| |] eqn:Hrec;
      try done.
    simpl. intros [= <-]. eexists. split; [reflexivity|].
    intros ? ? [= <- <-]. eauto.
Qed.

Lemma set_keys_frame prefix : ∀ key key' rest rest' val config config' default,
  key ≠ key' →
  Config.set_keys (prefix ++ key :: rest) val config = Return config' →
  Config.get_keys (prefix ++ key' :: rest') (VDict config') default
  = Config.get_keys (prefix ++ key' :: rest') (VDict config) default.
Proof.
  induction prefix as [|a prefix IH];
    intros key key' rest rest' val config config' default Hne Hset.
  - apply set_keys_inserts in Hset as (x & -> & _).
    simpl. by rewrite lookup_insert_ne.
  - simpl in Hset.
    apply set_keys_inserts in Hset as (x & -> & Hsub).
    assert (∃ t tail, prefix ++ key :: rest = t :: tail) as (t & tail & Htail).
    { destruct prefix; simpl; eauto. }
    destruct (Hsub t tail Htail) as (sub & sub' & Hc & Hrec & ->).
    change (Config.get_keys ((a :: prefix) ++ key' :: rest')
              (VDict (<[a := VDict sub']> config)) default)
      with (match <[a := VDict sub']> config !! a with
            | Some v => Config.get_keys (prefix ++ key' :: rest') v default
            | None => default
            end).
    rewrite lookup_insert_eq, (IH _ _ _ _ _ _ _ default Hne Hrec).
    simpl. destruct (config !! a) as [c|].
    + by subst c.
    + injection Hc as <-. destruct prefix; simpl; by rewrite lookup_empty.
Qed.

End ConfigMoreFacts.

(** X1. [set] on a path with an intermediate key bound to something that
    is no dict raises [TypeError], and neither the settings nor the disk
    change: the condition of C10 is exactly the one under which [set]
    returns. *)
Theorem config_set_needs_dicts env self key_path val w :
  ¬ Config.intermediate_ok (split_on "." key_path) (Config.settings self) →
  Config.set env self key_path val w = (Raise TypeError, w).
Proof.
  intros Hnot. unfold Config.set, mbind, M_bind, lift.
  rewrite set_keys_blocked; [done | apply split_on_nonempty | done].
Qed.

Lemma config_set_needs_dicts_witness :
  Config.set (Scenario.offline (Scenario.always_fails 503)) Scenario.sample_config
    "automation.daily_upload_time.hour" (VInt 10) Scenario.empty_disk
  = (Raise TypeError, Scenario.empty_disk).
Proof.
  apply (config_set_needs_dicts _ Scenario.sample_config
           "automation.daily_upload_time.hour" (VInt 10) Scenario.empty_disk).
  vm_compute. intros H. exact H.
Defined.

(** X2. [set] changes nothing beside its own path: for any two dotted
    paths that part ways at some key, [get] of the one returns after a
    [set] of the other what it returned before. *)
Theorem config_set_keeps_other_paths env self key_path key_path' val default w self' w' :
  Config.set env self key_path val w = (Return self', w') →
  Notions.diverge (split_on "." key_path) (split_on "." key_path') →
  Config.get self' key_path' default = Config.get self key_path' default.
Proof.
  intros Hset (prefix & key & key' & rest & rest' & Hk & Hk' & Hne).
  unfold Config.set, mbind, M_bind, lift in Hset.
  destruct (Config.set_keys (split_on "." key_path) val (Config.settings self))
    as [config'| |] eqn:Hkeys; try done.
  destruct (save_config_returns env (Config.mk (Config.config_file self) config') w)
    as (w2 & Hsave).
  rewrite Hsave in Hset. injection Hset as <- <-.
  unfold Config.get. simpl. rewrite Hk'. rewrite Hk in Hkeys.
  by apply (set_keys_frame prefix key key' rest rest' val).
Qed.

Lemma config_set_keeps_other_paths_witness :
  let r := Config.set (Scenario.offline (Scenario.always_fails 503))
             Scenario.sample_config "automation.upload_privacy" (VStr "unlisted")
             Scenario.empty_disk in
  let self' := match r.1 with Return self' => self' | _ => Scenario.sample_config end in
  r = (Return self', r.2)
  ∧ Config.get self' "automation.upload_privacy" VNone = VStr "unlisted"
  ∧ Config.get self' "automation.daily_upload_time" VNone
    = Config.get Scenario.sample_config "automation.daily_upload_time" VNone.
Proof.
  intros r self'. split; [reflexivity|]. split; [reflexivity|].
  apply (config_set_keeps_other_paths (Scenario.offline (Scenario.always_fails 503))
           Scenario.sample_config
           "automation.upload_privacy" "automation.daily_upload_time"
           (VStr "unlisted") VNone Scenario.empty_disk self' r.2).
  - reflexivity.
  - exists ["automation"], "upload_privacy", "daily_upload_time", [], [].
    split; [reflexivity|]. split; [reflexivity|]. done.
Defined.

Section ConfigLoadFacts.

Import Notions.

(** One level of the merge: a key of the file wins, merged with the
    default below it when both hold a dict; any other key keeps its
    default. *)
Lemma merge_into_lookup l default k :
  Config.merge_into (VDict l) default !! k =
    match l !! k with
    | None => default !! k
    | Some val =>
        match val, default !! k with
        | VDict _, Some (VDict d) => Some (VDict (Config.merge_into val d))
        | _, _ => Some val
        end
    end.
Proof.
  change (Config.merge_into (VDict l) default)
    with (map_fold
            (fun key val default =>
               match val, default !! key with
               | VDict _, Some (VDict d) =>
                   <[key := VDict (Config.merge_into val d)]> default
               | _, _ => <[key := val]> default
               end) default l).
  apply (map_fold_weak_ind (λ r m,
    r !! k = match m !! k with
             | None => default !! k
             | Some val =>
                 match val, default !! k with
                 | VDict _, Some (VDict d) => Some (VDict (Config.merge_into val d))
                 | _, _ => Some val
                 end
             end)).
  - by rewrite lookup_empty.
  - intros i x m r Hi IH. destruct (decide (i = k)) as [->|Hne].
    + rewrite Hi in IH. rewrite lookup_insert_eq, IH.
      destruct x; try (by rewrite lookup_insert_eq).
      destruct (default !! k) as [[]|]; by rewrite lookup_insert_eq.
    + rewrite (lookup_insert_ne m) by done. rewrite <- IH.
      destruct x; try (by rewrite lookup_insert_ne).
      destruct (r !! i) as [[]|]; by rewrite lookup_insert_ne.
Qed.

Lemma holds_get keys : ∀ config v default,
  holds keys config v → Config.get_keys keys (VDict config) default = v.
Proof.
  induction keys as [|key keys IH]; intros config v default H; [done|].
  destruct keys as [|key' keys].
  - simpl in *. by rewrite H.
  - destruct H as (sub & Hsub & H).
    change (Config.get_keys (key :: key' :: keys) (VDict config) default)
      with (match config !! key with
            | Some v0 => Config.get_keys (key' :: keys) v0 default
            | None => default
            end).
    rewrite Hsub. by apply IH.
Qed.

Lemma merge_holds_leaf keys : ∀ l default v,
  holds keys l v → ¬ is_dict v →
  holds keys (Config.merge_into (VDict l) default) v.
Proof.
  induction keys as [|key keys IH]; intros l default v H Hleaf; [done|].
  destruct keys as [|key' keys].
  - cbn [holds] in *. rewrite merge_into_lookup, H.
    destruct v; try done. destruct Hleaf. by eexists.
  - destruct H as (sub & Hsub & H).
    change (∃ sub0, Config.merge_into (VDict l) default !! key = Some (VDict sub0)
                    ∧ holds (key' :: keys) sub0 v).
    rewrite merge_into_lookup, Hsub.
    destruct (default !! key) as [[| | | | | |d]|]; eauto.
Qed.

Lemma silent_get keys : ∀ l default,
  silent keys l → Config.get_keys keys (VDict l) default = default.
Proof.
  induction keys as [|key keys IH]; intros l default H; [done|].
  simpl in *. destruct (l !! key) as [[| | | | | |sub]|]; try done. by apply IH.
Qed.

Lemma merge_silent_get keys : ∀ l config default,
  silent keys l →
  Config.get_keys keys (VDict (Config.merge_into (VDict l) config)) default
  = Config.get_keys keys (VDict config) default.
Proof.
  induction keys as [|key keys IH]; intros l config default H; [done|].
  change (match Config.merge_into (VDict l) config !! key with
          | Some v => Config.get_keys keys v default
          | None => default
          end
          = match config !! key with
            | Some v => Config.get_keys keys v default
            | None => default
            end).
  rewrite merge_into_lookup. simpl in H.
  destruct (l !! key) as [[| | | | | |sub]|]; try done.
  destruct (config !! key) as [c|].
  - destruct c; try (rewrite silent_get by done; destruct keys; done).
    by apply IH.
  - by apply silent_get.
Qed.

Lemma load_config_object env config_file loaded w :
  files w !! config_file = Some (FJson (VDict loaded)) →
  Config.load_config env config_file w
  = (Return (Config.merge_into (VDict loaded) Config.default_config), w).
Proof.
  intros Hf.
  unfold Config.load_config, mbind, M_bind, path_exists, try_catch, read_json,
    lift, Config._merge_configs.
  rewrite Hf. simpl. by rewrite Hf.
Qed.

End ConfigLoadFacts.

(** X3. A setting that the configuration file holds overrides the
    default: when the file is a JSON object in which a dotted path leads
    to a value that is no dict, the configuration made from it returns
    that value for the path; the file is not rewritten. *)
Theorem config_file_overrides_default env config_file loaded key_path v default w :
  files w !! config_file = Some (FJson (VDict loaded)) →
  Notions.holds (split_on "." key_path) loaded v →
  ¬ Notions.is_dict v →
  ∃ self,
    Config.init env config_file w = (Return self, w)
    ∧ Config.get self key_path default = v.
Proof.
  intros Hf Hholds Hleaf.
  eexists. split.
  - unfold Config.init, mbind, M_bind. rewrite (load_config_object _ _ loaded) by done.
    reflexivity.
  - unfold Config.get. simpl. apply holds_get. by apply merge_holds_leaf.
Qed.

(** X4. A setting that the configuration file is silent about keeps its
    default: when the file is a JSON object in which a dotted path runs
    through dicts into a missing key, the configuration made from it
    returns for the path what the defaults alone return. *)
Theorem config_file_keeps_other_defaults env config_file loaded key_path default w :
  files w !! config_file = Some (FJson (VDict loaded)) →
  Notions.silent (split_on "." key_path) loaded →
  ∃ self,
    Config.init env config_file w = (Return self, w)
    ∧ Config.get self key_path default
      = Config.get (Config.mk config_file Config.default_config) key_path default.
Proof.
  intros Hf Hsilent.
  eexists. split.
  - unfold Config.init, mbind, M_bind. rewrite (load_config_object _ _ loaded) by done.
    reflexivity.
  - unfold Config.get. simpl. by apply merge_silent_get.
Qed.

(** X5. Loading never raises and falls back to the defaults: with no
    configuration file the defaults are returned and, where the file can
    be written, saved to it; with a file that is no JSON object (not
    JSON at all, or a JSON list, number, ...) the defaults are returned
    and the file is left as it is. *)
Theorem config_load_falls_back_to_defaults env config_file w :
  (files w !! config_file = None →
   ∃ w', Config.load_config env config_file w = (Return Config.default_config, w')
         ∧ files w' !! config_file
           = (if can_write env config_file
              then Some (FJson (VDict Config.default_config)) else None)
         ∧ ∀ p, p ≠ config_file → files w' !! p = files w !! p)
  ∧ (∀ f, files w !! config_file = Some f →
          (∀ loaded, f ≠ FJson (VDict loaded)) →
          Config.load_config env config_file w = (Return Config.default_config, w)).
Proof.
  split.
  - intros Hf.
    unfold Config.load_config, mbind, M_bind, path_exists, Config.save_config_of,
      try_catch, write_json.
    rewrite Hf. simpl.
    destruct (can_write env config_file); simpl.
    + eexists. split; [reflexivity|]. simpl. split; [by rewrite lookup_insert_eq|].
      intros p Hp. by rewrite lookup_insert_ne.
    + exists w. by rewrite Hf.
  - intros f Hf Hno.
    unfold Config.load_config, mbind, M_bind, path_exists, try_catch, read_json,
      lift, Config._merge_configs.
    rewrite Hf. simpl. rewrite Hf.
    destruct f as [v| | | |]; try done.
    destruct v; try done. by destruct (Hno d).
Qed.

Lemma config_file_overrides_default_witness :
  ∃ self,
    Config.init (Scenario.offline (Scenario.always_fails 503)) "config.json"
      Cases.configured_disk = (Return self, Cases.configured_disk)
    ∧ Config.get self "automation.daily_upload_time" VNone = VStr "18:30".
Proof.
  apply (config_file_overrides_default _ "config.json" Cases.evening_settings
           "automation.daily_upload_time" (VStr "18:30") VNone Cases.configured_disk).
  - reflexivity.
  - eexists. split; reflexivity.
  - intros [d Hd]. discriminate Hd.
Defined.

Lemma config_file_keeps_other_defaults_witness :
  ∃ self,
    Config.init (Scenario.offline (Scenario.always_fails 503)) "config.json"
      Cases.configured_disk = (Return self, Cases.configured_disk)
    ∧ Config.get self "automation.upload_privacy" VNone
      = Config.get (Config.mk "config.json" Config.default_config)
          "automation.upload_privacy" VNone.
Proof.
  apply (config_file_keeps_other_defaults _ "config.json" Cases.evening_settings
           "automation.upload_privacy" VNone Cases.configured_disk).
  - reflexivity.
  - vm_compute. exact I.
Defined.

Lemma config_load_falls_back_to_defaults_witness :
  ∃ w', Config.load_config (Scenario.offline (Scenario.always_fails 503))
          "config.json" Scenario.empty_disk = (Return Config.default_config, w')
        ∧ files w' !! "config.json"
          = (if can_write (Scenario.offline (Scenario.always_fails 503)) "config.json"
             then Some (FJson (VDict Config.default_config)) else None)
        ∧ ∀ p, p ≠ "config.json" → files w' !! p = files Scenario.empty_disk !! p.
Proof.
  apply (proj1 (config_load_falls_back_to_defaults
                  (Scenario.offline (Scenario.always_fails 503)) "config.json"
                  Scenario.empty_disk)).
  reflexivity.
Defined.

(** The default upload privacy is "public", and the sample file leaves
    it so. *)
Example default_upload_privacy :
  Config.get (Config.mk "config.json" Config.default_config)
    "automation.upload_privacy" VNone = VStr "public".
Proof. reflexivity. Qed.

(** ** The uploader: permanent errors, progress, and the guards *)

Section UploaderMoreFacts.

Import YouTubeUploader Spec.

Variable env : Env.

(** One turn of the loop on any exception that is no retriable HTTP
    error. *)
Lemma resumable_loop_permanent fuel error retry w e :
  next_chunk env (chunks w) = Fail e →
  (∀ status, e = HttpError status → retriable status = false) →
  resumable_loop env (S fuel) error retry w = (Return VNone, bump w).
Proof.
  intros Hc Hperm. simpl.
  unfold mbind, M_bind, try_catch, call_next_chunk. rewrite Hc. simpl.
  destruct e; try reflexivity.
  by rewrite (Hperm status eq_refl).
Qed.

(** One turn of the loop on a response without an id. *)
Lemma resumable_loop_no_id fuel error retry w response :
  next_chunk env (chunks w) = Ok (Some response) →
  response !! "id" = None →
  resumable_loop env (S fuel) error retry w = (Return VNone, bump w).
Proof.
  intros Hc Hid. simpl.
  unfold mbind, M_bind, try_catch, call_next_chunk. rewrite Hc. simpl.
  unfold has_key. rewrite bool_decide_false; [done|].
  rewrite Hid. by intros [? ?].
Qed.

(** One turn of the loop on a chunk in progress: with no error so far
    the loop goes on as it is; with an error recorded it counts a retry
    and sleeps. *)
Lemma resumable_loop_progress fuel error retry w :
  next_chunk env (chunks w) = Ok None →
  resumable_loop env (S fuel) error retry w =
    match error with
    | None => resumable_loop env fuel None retry (bump w)
    | Some status =>
        if retry + 1 >? 3 then (Return VNone, bump w)
        else resumable_loop env fuel (Some status) (retry + 1)
               (nap (2 ^ (retry + 1)) (bump w))
    end.
Proof.
  intros Hc. simpl.
  unfold mbind, M_bind, try_catch, call_next_chunk. rewrite Hc. simpl.
  destruct error; [|reflexivity].
  unfold mret, M_ret. by destruct (retry + 1 >? 3).
Qed.

Lemma resumable_loop_uninterrupted response id :
  response !! "id" = Some id →
  ∀ k fuel w,
    (k < fuel)%nat →
    (∀ i, (i < k)%nat → next_chunk env (chunks w + i) = Ok None) →
    next_chunk env (chunks w + k) = Ok (Some response) →
    resumable_loop env fuel None 0 w =
      (Return id, mkWorld (files w) (slept w) (chunks w + k + 1)).
Proof.
  intros Hid. induction k as [|k IH]; intros fuel w Hf Hprog Hok.
  - destruct fuel as [|fuel]; [lia|]. rewrite Nat.add_0_r in Hok.
    rewrite (resumable_loop_response _ _ _ _ _ response id) by done.
    unfold bump. do 2 f_equal. lia.
  - destruct fuel as [|fuel]; [lia|].
    rewrite resumable_loop_progress
      by (by rewrite <- (Hprog 0%nat), Nat.add_0_r by lia).
    rewrite IH.
    + simpl. do 2 f_equal. lia.
    + lia.
    + intros i Hi. simpl. rewrite <- (Hprog (S i)) by lia. f_equal. lia.
    + simpl. rewrite <- Hok. f_equal. lia.
Qed.

End UploaderMoreFacts.

(** X6. A permanent failure ends the upload at once: when the first
    call of [next_chunk] raises an HTTP error with a status other than
    500, 502, 503, 504, or any other exception, [upload_video] returns
    [None] after that one call, without a sleep and without touching a
    file. *)
Theorem upload_aborts_on_permanent_error
    env self fuel video_path title description tags w e :
  Spec.ready env self video_path w →
  (0 < fuel)%nat →
  next_chunk env (chunks w) = Fail e →
  (∀ status, e = HttpError status → YouTubeUploader.retriable status = false) →
  YouTubeUploader.upload_video env self fuel video_path title description tags w
  = (Return VNone, Spec.bump w).
Proof.
  intros Hready Hfuel Hc Hperm.
  rewrite upload_video_ready by done.
  destruct fuel as [|fuel]; [lia|].
  by rewrite (resumable_loop_permanent env fuel None 0 w e).
Qed.

Lemma upload_aborts_on_permanent_error_witness :
  YouTubeUploader.upload_video (Scenario.offline Cases.forbidden)
    (YouTubeUploader.mk true) 1 "videos/short.mp4" "title" "description" ["funny"]
    Scenario.fresh_disk
  = (Return VNone, Spec.bump Scenario.fresh_disk).
Proof.
  apply (upload_aborts_on_permanent_error (Scenario.offline Cases.forbidden)
           (YouTubeUploader.mk true) 1 "videos/short.mp4" "title" "description"
           ["funny"] Scenario.fresh_disk (HttpError 403)).
  - unfold Spec.ready. simpl. repeat split; try reflexivity. eexists. reflexivity.
  - lia.
  - reflexivity.
  - intros status [= <-]. reflexivity.
Defined.

(** X7. A response without a usable id counts as a failed upload: when
    the response of the first call carries no "id", or one that is
    empty or null, [upload_video] returns [None] after that one call
    and writes no record to the log. *)
Theorem upload_fails_without_id
    env self fuel video_path title description tags w response :
  Spec.ready env self video_path w →
  (0 < fuel)%nat →
  next_chunk env (chunks w) = Ok (Some response) →
  truthy (dict_get response "id" VNone) = false →
  YouTubeUploader.upload_video env self fuel video_path title description tags w
  = (Return VNone, Spec.bump w).
Proof.
  intros Hready Hfuel Hc Hid.
  rewrite upload_video_ready by done.
  destruct fuel as [|fuel]; [lia|].
  unfold dict_get in Hid.
  destruct (response !! "id") as [id|] eqn:E.
  - rewrite (resumable_loop_response env fuel None 0 w response id) by done.
    by rewrite Hid.
  - by rewrite (resumable_loop_no_id env fuel None 0 w response).
Qed.

Lemma upload_fails_without_id_witness :
  YouTubeUploader.upload_video
    (Scenario.offline (Scenario.fails_then_ok 0 503 (VStr "")))
    (YouTubeUploader.mk true) 1 "videos/short.mp4" "title" "description" ["funny"]
    Scenario.fresh_disk
  = (Return VNone, Spec.bump Scenario.fresh_disk).
Proof.
  apply (upload_fails_without_id
           (Scenario.offline (Scenario.fails_then_ok 0 503 (VStr "")))
           (YouTubeUploader.mk true) 1 "videos/short.mp4" "title" "description"
           ["funny"] Scenario.fresh_disk {[ "id" := VStr "" ]}).
  - unfold Spec.ready. simpl. repeat split; try reflexivity. eexists. reflexivity.
  - lia.
  - reflexivity.
  - reflexivity.
Defined.

(** X8. An upload that meets no error never sleeps: when [next_chunk]
    reports [k] chunks in progress and then a response with an id,
    [upload_video] returns the id after exactly [k + 1] calls and no
    sleep, however large [k] is. *)
Theorem upload_without_errors_never_sleeps
    env self fuel video_path title description tags w k response id :
  Spec.ready env self video_path w →
  (k < fuel)%nat →
  (∀ i, (i < k)%nat → next_chunk env (chunks w + i) = Ok None) →
  next_chunk env (chunks w + k) = Ok (Some response) →
  response !! "id" = Some id →
  truthy id = true →
  ∃ w',
    YouTubeUploader.upload_video env self fuel video_path title description tags w
      = (Return id, w')
    ∧ slept w' = slept w
    ∧ chunks w' = (chunks w + k + 1)%nat.
Proof.
  intros Hready Hfuel Hprog Hok Hid Ht.
  rewrite upload_video_ready by done.
  rewrite (resumable_loop_uninterrupted env response id Hid k) by done.
  rewrite Ht.
  destruct (save_upload_metadata_spec env id video_path title description tags
              (mkWorld (files w) (slept w) (chunks w + k + 1)))
    as (w' & Hsave & Hslept & Hchunks & _).
  rewrite Hsave. exists w'. by repeat split.
Qed.

Lemma upload_without_errors_never_sleeps_witness :
  ∃ w',
    YouTubeUploader.upload_video
      (Scenario.offline (Cases.progress_then_ok 5 (VStr "abc123")))
      (YouTubeUploader.mk true) 6 "videos/short.mp4" "title" "description" ["funny"]
      Scenario.fresh_disk
      = (Return (VStr "abc123"), w')
    ∧ slept w' = slept Scenario.fresh_disk
    ∧ chunks w' = (chunks Scenario.fresh_disk + 5 + 1)%nat.
Proof.
  apply (upload_without_errors_never_sleeps
           (Scenario.offline (Cases.progress_then_ok 5 (VStr "abc123")))
           (YouTubeUploader.mk true) 6 "videos/short.mp4" "title" "description"
           ["funny"] Scenario.fresh_disk 5 {[ "id" := VStr "abc123" ]}
           (VStr "abc123")).
  - unfold Spec.ready. simpl. repeat split; try reflexivity. eexists. reflexivity.
  - lia.
  - intros i Hi. simpl. unfold Cases.progress_then_ok.
    destruct (Nat.ltb_spec i 5); [reflexivity | lia].
  - reflexivity.
  - reflexivity.
  - reflexivity.
Defined.

(** X9. An error, once met, is never forgotten: after one retriable
    HTTP error every further chunk that is merely in progress counts as
    a retry and is followed by a sleep.  So when the first call fails
    with such a status and all later calls report progress,
    [upload_video] gives up and returns [None] after sleeps of 2, 4 and
    8 seconds and four calls, though only one call failed. *)
Theorem upload_counts_progress_as_retry_after_error
    env self fuel video_path title description tags w status :
  Spec.ready env self video_path w →
  (4 ≤ fuel)%nat →
  YouTubeUploader.retriable status = true →
  next_chunk env (chunks w) = Fail (HttpError status) →
  (∀ i, i ≠ chunks w → next_chunk env i = Ok None) →
  YouTubeUploader.upload_video env self fuel video_path title description tags w
  = (Return VNone,
     mkWorld (files w) (slept w ++ [2; 4; 8]) (chunks w + 4)).
Proof.
  intros Hready Hfuel Hr Hfail Hprog.
  rewrite upload_video_ready by done.
  destruct fuel as [|fuel]; [lia|].
  rewrite (resumable_loop_retriable env fuel None 0 w status) by done.
  change (0 + 1 >? 3) with false. cbv iota.
  set (w1 := Spec.nap (2 ^ (0 + 1)) (Spec.bump w)).
  assert (∀ k fuel' retry w2,
             (chunks w < chunks w2)%nat → (k < fuel')%nat → retry + Z.of_nat k = 3 →
             YouTubeUploader.resumable_loop env fuel' (Some status) retry w2 =
               (Return VNone, mkWorld (files w2) (slept w2 ++ Spec.backoffs retry k)
                                      (chunks w2 + k + 1))) as Hloop.
  { induction k as [|k IH]; intros fuel' retry w2 Hlt Hf Hle.
    - destruct fuel' as [|fuel']; [lia|].
      rewrite resumable_loop_progress by (apply Hprog; lia).
      replace (retry + 1 >? 3) with true by lia.
      unfold Spec.bump. simpl. rewrite app_nil_r. do 2 f_equal. lia.
    - destruct fuel' as [|fuel']; [lia|].
      rewrite resumable_loop_progress by (apply Hprog; lia).
      replace (retry + 1 >? 3) with false by lia.
      rewrite IH by (simpl; lia).
      simpl. rewrite <- app_assoc. simpl. do 2 f_equal. lia. }
  rewrite (Hloop 2%nat fuel (0 + 1) w1) by (subst w1; simpl; lia).
  subst w1. simpl. rewrite <- app_assoc. simpl. do 2 f_equal. lia.
Qed.

Lemma upload_counts_progress_as_retry_after_error_witness :
  YouTubeUploader.upload_video (Scenario.offline Cases.hiccup_then_progress)
    (YouTubeUploader.mk true) 4 "videos/short.mp4" "title" "description" ["funny"]
    Scenario.fresh_disk
  = (Return VNone,
     mkWorld (files Scenario.fresh_disk) (slept Scenario.fresh_disk ++ [2; 4; 8])
             (chunks Scenario.fresh_disk + 4)).
Proof.
  apply (upload_counts_progress_as_retry_after_error
           (Scenario.offline Cases.hiccup_then_progress)
           (YouTubeUploader.mk true) 4 "videos/short.mp4" "title" "description"
           ["funny"] Scenario.fresh_disk 503).
  - unfold Spec.ready. simpl. repeat split; try reflexivity. eexists. reflexivity.
  - lia.
  - reflexivity.
  - reflexivity.
  - intros i Hi. simpl in *. destruct i; [done | reflexivity].
Defined.

(** X10. Without a service or without the file nothing is sent: when the
    uploader is not authenticated, or no file is at the given path,
    [upload_video] returns [None] and the state is as before, with no
    call of [next_chunk]. *)
Theorem upload_needs_service_and_file
    env self fuel video_path title description tags w :
  YouTubeUploader.youtube self = false ∨ files w !! video_path = None →
  YouTubeUploader.upload_video env self fuel video_path title description tags w
  = (Return VNone, w).
Proof.
  intros Hguard. apply upload_video_not_ready.
  intros (Hy & [f Hf] & _). destruct Hguard as [Hn | Hn]; congruence.
Qed.

Lemma upload_needs_service_and_file_witness :
  YouTubeUploader.upload_video
    (Scenario.offline (Scenario.fails_then_ok 0 503 (VStr "abc123")))
    (YouTubeUploader.mk true) 1 "videos/missing.mp4" "title" "description" ["funny"]
    Scenario.fresh_disk
  = (Return VNone, Scenario.fresh_disk).
Proof.
  apply (upload_needs_service_and_file
           (Scenario.offline (Scenario.fails_then_ok 0 503 (VStr "abc123")))
           (YouTubeUploader.mk true) 1 "videos/missing.mp4" "title" "description"
           ["funny"] Scenario.fresh_disk).
  right. reflexivity.
Defined.

(** ** The uploader: authentication *)

Section AuthFacts.

Import YouTubeUploader.

Variables (env : Env) (google : Google).

Lemma renew_unsaved stored w :
  can_write env CREDENTIALS_FILE = false →
  renew env google stored w = (Return None, w)
  ∨ ∃ e, renew env google stored w = (Raise e, w).
Proof.
  intros Hw.
  unfold renew, consent, mbind, M_bind, path_exists, lift, write_file, mret, M_ret,
    perform.
  rewrite Hw.
  destruct stored as [c|]; [destruct (expired c && refresh_token c)|];
    repeat case_match; simplify_eq; eauto.
Qed.

End AuthFacts.

(** X11. Valid stored credentials are used as they are: when the
    credentials file exists and holds valid credentials, [authenticate]
    neither refreshes them nor asks for consent nor writes any file; it
    returns [True] with the service set when [build] succeeds, and
    [False] with the object as it was when [build] raises. *)
Theorem authenticate_uses_valid_credentials env google self w c :
  is_Some (files w !! YouTubeUploader.CREDENTIALS_FILE) →
  YouTubeUploader.pickle_load google = Ok c →
  YouTubeUploader.valid c = true →
  YouTubeUploader.authenticate env google self w
  = (Return (match YouTubeUploader.build google c with
             | Ok _ => (true, YouTubeUploader.mk true)
             | Fail _ => (false, self)
             end), w).
Proof.
  intros [f Hf] Hload Hvalid.
  unfold YouTubeUploader.authenticate, try_catch, mbind, M_bind, path_exists, lift.
  rewrite Hf. simpl. rewrite Hload. simpl. rewrite Hvalid. simpl.
  by destruct (YouTubeUploader.build google c).
Qed.

Lemma authenticate_uses_valid_credentials_witness :
  YouTubeUploader.authenticate (Scenario.offline (Scenario.always_fails 503))
    (Cases.google_with Cases.good) (YouTubeUploader.mk false) Cases.signed_in_disk
  = (Return (true, YouTubeUploader.mk true), Cases.signed_in_disk).
Proof.
  apply (authenticate_uses_valid_credentials
           (Scenario.offline (Scenario.always_fails 503))
           (Cases.google_with Cases.good) (YouTubeUploader.mk false)
           Cases.signed_in_disk Cases.good).
  - eexists. reflexivity.
  - reflexivity.
  - reflexivity.
Defined.

(** X12. A failed refresh is final: when the stored credentials are
    expired and carry a refresh token, and refreshing them raises,
    [authenticate] returns [False] and leaves the object and the disk as
    they were; it does not go on to the interactive consent, whether or
    not client secrets are there. *)
Theorem authenticate_fails_on_failed_refresh env google self w c e :
  is_Some (files w !! YouTubeUploader.CREDENTIALS_FILE) →
  YouTubeUploader.pickle_load google = Ok c →
  YouTubeUploader.valid c = false →
  YouTubeUploader.expired c = true →
  YouTubeUploader.refresh_token c = true →
  YouTubeUploader.refresh google c = Fail e →
  YouTubeUploader.authenticate env google self w = (Return (false, self), w).
Proof.
  intros [f Hf] Hload Hvalid Hexp Htok Hrefresh.
  unfold YouTubeUploader.authenticate, try_catch, mbind, M_bind, path_exists, lift,
    YouTubeUploader.renew.
  rewrite Hf. simpl. rewrite Hload. simpl. rewrite Hvalid, Hexp, Htok. simpl.
  unfold mbind, M_bind, lift. by rewrite Hrefresh.
Qed.

Lemma authenticate_fails_on_failed_refresh_witness :
  YouTubeUploader.authenticate (Scenario.offline (Scenario.always_fails 503))
    (Cases.google_with Cases.stale) (YouTubeUploader.mk false) Cases.signed_in_disk
  = (Return (false, YouTubeUploader.mk false), Cases.signed_in_disk).
Proof.
  apply (authenticate_fails_on_failed_refresh
           (Scenario.offline (Scenario.always_fails 503))
           (Cases.google_with Cases.stale) (YouTubeUploader.mk false)
           Cases.signed_in_disk Cases.stale RequestException);
    try reflexivity.
  eexists. reflexivity.
Defined.

(** X13. An uploader made with neither stored credentials nor client
    secrets never uploads: making it writes nothing, and its
    [upload_video] returns [None] for every asset without a call of
    [next_chunk]. *)
Theorem uploader_without_credentials_never_uploads
    env google fuel video_path title description tags w :
  files w !! YouTubeUploader.CREDENTIALS_FILE = None →
  files w !! YouTubeUploader.CLIENT_SECRETS_FILE = None →
  ∃ self,
    YouTubeUploader.init env google w = (Return self, w)
    ∧ YouTubeUploader.upload_video env self fuel video_path title description tags w
      = (Return VNone, w).
Proof.
  intros Hc Hs. exists (YouTubeUploader.mk false). split.
  - unfold YouTubeUploader.init, YouTubeUploader.authenticate, YouTubeUploader.renew,
      YouTubeUploader.consent, try_catch, mbind, M_bind, path_exists, lift, mret,
      M_ret.
    rewrite Hc. simpl. rewrite Hs. reflexivity.
  - apply upload_video_not_ready. by intros (? & _).
Qed.

Lemma uploader_without_credentials_never_uploads_witness :
  ∃ self,
    YouTubeUploader.init (Scenario.offline (Scenario.fails_then_ok 0 503 (VStr "abc123")))
      (Cases.google_with Cases.good) Scenario.fresh_disk
      = (Return self, Scenario.fresh_disk)
    ∧ YouTubeUploader.upload_video
        (Scenario.offline (Scenario.fails_then_ok 0 503 (VStr "abc123"))) self 1
        "videos/short.mp4" "title" "description" ["funny"] Scenario.fresh_disk
      = (Return VNone, Scenario.fresh_disk).
Proof.
  apply (uploader_without_credentials_never_uploads
           (Scenario.offline (Scenario.fails_then_ok 0 503 (VStr "abc123")))
           (Cases.google_with Cases.good) 1 "videos/short.mp4" "title" "description"
           ["funny"] Scenario.fresh_disk); reflexivity.
Defined.

(** X14. New credentials that cannot be saved are not used: when the
    credentials file cannot be written and there are no valid stored
    credentials (no file, or stored ones that are not valid),
    [authenticate] returns [False] and changes nothing, even where the
    refresh or the consent itself succeeds. *)
Theorem authenticate_needs_to_save env google self w :
  can_write env YouTubeUploader.CREDENTIALS_FILE = false →
  files w !! YouTubeUploader.CREDENTIALS_FILE = None
  ∨ (∃ c, YouTubeUploader.pickle_load google = Ok c
          ∧ YouTubeUploader.valid c = false) →
  YouTubeUploader.authenticate env google self w = (Return (false, self), w).
Proof.
  intros Hw Hstored.
  unfold YouTubeUploader.authenticate, try_catch, mbind at 1 2 3, M_bind,
    path_exists, lift.
  destruct (files w !! YouTubeUploader.CREDENTIALS_FILE) as [f|] eqn:Hf; simpl.
  - destruct Hstored as [|(c & Hload & Hvalid)]; [done|].
    rewrite Hload. simpl. rewrite Hvalid.
    by destruct (renew_unsaved env google (Some c) w Hw) as [-> | [e ->]].
  - by destruct (renew_unsaved env google None w Hw) as [-> | [e ->]].
Qed.

Lemma authenticate_needs_to_save_witness :
  YouTubeUploader.authenticate
    (Scenario.readonly (Scenario.offline (Scenario.always_fails 503)))
    (Cases.google_with Cases.good) (YouTubeUploader.mk false) Cases.secrets_only_disk
  = (Return (false, YouTubeUploader.mk false), Cases.secrets_only_disk).
Proof.
  apply (authenticate_needs_to_save
           (Scenario.readonly (Scenario.offline (Scenario.always_fails 503)))
           (Cases.google_with Cases.good) (YouTubeUploader.mk false)
           Cases.secrets_only_disk).
  - reflexivity.
  - left. reflexivity.
Defined.

(** ** The script generator: sources, enrichment, validation *)

Section AuthSuccessFacts.
Import YouTubeUploader.
Variables (env : Env) (google : Google).

Lemma renew_saves stored w c w' :
  renew env google stored w = (Return (Some c), w') →
  is_Some (files w' !! CREDENTIALS_FILE).
Proof.
  unfold renew, mbind at 1, M_bind.
  match goal with |- context [match ?m w with _ => _ end] =>
    destruct (m w) as [[[c'|]| |] w1] end; try done.
  unfold mbind, M_bind, write_file, mret, M_ret.
  destruct (can_write env CREDENTIALS_FILE); [|done].
  intros [= <- <-]. simpl. rewrite lookup_insert_eq. eauto.
Qed.

Lemma authenticate_cases self w :
  ∃ credentials : M World (option credentials),
    authenticate env google self w =
      match credentials w with
      | (Return (Some c), w') =>
          match build google c with
          | Ok _ => (Return (true, mk true), w')
          | Fail _ => (Return (false, self), w')
          end
      | (Return None, w') => (Return (false, self), w')
      | (Raise _, w') => (Return (false, self), w')
      | (OutOfFuel, w') => (OutOfFuel, w')
      end
    ∧ ∀ c w', credentials w = (Return (Some c), w') →
              is_Some (files w' !! CREDENTIALS_FILE).
Proof.
  unfold authenticate, try_catch, mbind at 1, M_bind, path_exists.
  destruct (files w !! CREDENTIALS_FILE) as [f|] eqn:Hf.
  - rewrite bool_decide_true by eauto.
    unfold mbind at 1, M_bind, lift.
    destruct (pickle_load google) as [c|e]; simpl.
    + destruct (valid c) eqn:Hv.
      * exists (mret (Some c)). split.
        -- unfold mbind, M_bind, mret, M_ret, lift. simpl.
           by destruct (build google c).
        -- intros c0 w' [= <- <-]. by rewrite Hf.
      * exists (renew env google (Some c)). split; [|apply renew_saves].
        unfold mbind at 1, M_bind.
        destruct (renew env google (Some c) w) as [[[c'|]| |] w1]; try done.
        unfold mbind, M_bind, lift, mret, M_ret. simpl.
        by destruct (build google c').
    + exists (lift (Raise e)). split; [done|]. by intros ? ? [=].
  - rewrite bool_decide_false by (by intros [? ?]).
    exists (renew env google None). split; [|apply renew_saves].
    unfold mbind at 1 2, M_bind, mret at 1, M_ret.
    destruct (renew env google None w) as [[[c'|]| |] w1]; try done.
    unfold mbind, M_bind, lift, mret, M_ret. simpl.
    by destruct (build google c').
Qed.
End AuthSuccessFacts.

(** X15. Success leaves the credentials on disk: whenever [authenticate]
    returns [True], the service is set and the credentials file exists
    afterwards. *)
Theorem authenticate_success_leaves_credentials env google self w self' w' :
  YouTubeUploader.authenticate env google self w = (Return (true, self'), w') →
  YouTubeUploader.youtube self' = true
  ∧ is_Some (files w' !! YouTubeUploader.CREDENTIALS_FILE).
Proof.
  destruct (authenticate_cases env google self w) as (m & -> & Hsaved).
  destruct (m w) as [[[c|]| |] w1] eqn:Hm; try done.
  destruct (YouTubeUploader.build google c); [|done].
  intros [= <- <-]. split; [done|]. by eapply Hsaved.
Qed.

Lemma authenticate_success_leaves_credentials_witness :
  let env := Scenario.offline (Scenario.always_fails 503) in
  let r := YouTubeUploader.authenticate env (Cases.google_with Cases.good)
             (YouTubeUploader.mk false) Cases.secrets_only_disk in
  r.1 = Return (true, YouTubeUploader.mk true)
  ∧ YouTubeUploader.youtube (YouTubeUploader.mk true) = true
  ∧ is_Some (files r.2 !! YouTubeUploader.CREDENTIALS_FILE).
Proof.
  intros env r. split; [reflexivity|].
  apply (authenticate_success_leaves_credentials env (Cases.google_with Cases.good)
           (YouTubeUploader.mk false) Cases.secrets_only_disk
           (YouTubeUploader.mk true) r.2).
  reflexivity.
Defined.

Ltac not_enrichment :=
  unfold Notions.enrichment_keys; rewrite !elem_of_cons, elem_of_nil;
  intros [?|[?|[?|[?|[]]]]]; discriminate.

Section ScriptMoreFacts.

Import ScriptGenerator Spec Notions.

Lemma parse_joke_keyed api_url data joke_data :
  parse_joke api_url data = Return (Some joke_data) → keyed joke_data.
Proof.
  unfold parse_joke, obj_get, mbind, outcome_bind.
  repeat case_match; intros [= <-]; reflexivity.
Qed.

Lemma keyed_truthy joke_data : keyed joke_data → truthy (VDict joke_data) = true.
Proof.
  unfold keyed, has_key. simpl. intros H.
  apply negb_true_iff, bool_decide_eq_false. intros ->.
  rewrite !lookup_empty in H.
  rewrite !bool_decide_false in H by (by intros [? ?]). done.
Qed.

Lemma fetch_joke_keyed env api_url joke_data :
  fetch_joke_from_api env api_url = Return (Some joke_data) → keyed joke_data.
Proof.
  unfold fetch_joke_from_api, try_except, mbind, outcome_bind, perform.
  destruct (http_get_json env api_url) as [data|e]; [|done].
  destruct (parse_joke api_url data) as [o| |] eqn:Hp; try done.
  intros [= ->]. by eapply parse_joke_keyed.
Qed.

Lemma try_apis_keyed env apis joke_data :
  try_apis env apis = Return (Some joke_data) → keyed joke_data.
Proof.
  induction apis as [|api_url apis IH]; simpl; [done|].
  destruct (fetch_joke_from_api env api_url) as [o| |] eqn:Hf; simpl; try done.
  destruct (truthy_opt o); [|done].
  intros [= ->]. by eapply fetch_joke_keyed.
Qed.

Lemma well_formed_keyed joke_data : well_formed_joke joke_data → keyed joke_data.
Proof. by intros [(? & ? & ->) | (? & ->)]. Qed.

Lemma fetch_useless env api_url :
  useless env api_url → fetch_joke_from_api env api_url = Return None.
Proof.
  unfold fetch_joke_from_api, try_except, mbind, outcome_bind, perform.
  intros [[e ->] | (data & -> & Hno)]; [done|].
  unfold parse_joke, obj_get, mbind, outcome_bind.
  destruct data; try (repeat case_match; done).
  destruct Hno. by eexists.
Qed.

(** What a formatted script always holds. *)
Lemma format_script_fields env joke_data script_data :
  format_script env joke_data = Return script_data →
  (∃ d, script_data !! "duration" = Some (VInt d))
  ∧ is_Some (script_data !! "type")
  ∧ is_Some (script_data !! "script")
  ∧ script_data !! "source"
    = Some (VStr (if has_key joke_data "setup" || has_key joke_data "joke"
                  then "api" else "backup")).
Proof.
  unfold format_script, getitem, split_of, mbind, outcome_bind.
  repeat case_match; intros [= <-]; repeat split; eauto.
Qed.

(** The enriched script is the script with four more keys. *)
Lemma enhance_script_frame script_data enhanced :
  enhance_script_for_video script_data = Return enhanced →
  (∀ k, k ∉ enrichment_keys → enhanced !! k = script_data !! k)
  ∧ (∀ k, k ∈ enrichment_keys → is_Some (enhanced !! k)).
Proof.
  unfold enhance_script_for_video, getitem, mbind, outcome_bind, enrichment_keys.
  intros H. split.
  - intros k Hk.
    assert (k ≠ "visual_cues" ∧ k ≠ "text_overlays" ∧ k ≠ "background_audio"
            ∧ k ≠ "suggested_hashtags") as (? & ? & ? & ?).
    { repeat split; intros ->; apply Hk; rewrite !elem_of_cons; auto. }
    repeat case_match; simplify_eq; unfold dict_update; simpl;
      by rewrite !lookup_insert_ne by done.
  - intros k Hk.
    repeat case_match; simplify_eq; unfold dict_update; simpl;
      set_unfold; destruct Hk as [->|[->|[->|[->|[]]]]]; by simplify_map_eq.
Qed.

Lemma finish_inv env joke_data w enhanced :
  (finish env joke_data w).1 = Return (Some enhanced) →
  ∃ script_data,
    format_script env joke_data = Return script_data
    ∧ enhance_script_for_video script_data = Return enhanced.
Proof.
  unfold finish, mbind, M_bind, lift, write_json, mret, M_ret.
  destruct (format_script env joke_data) as [sd| |] eqn:Hf; try done.
  destruct (enhance_script_for_video sd) as [en| |] eqn:He; try done.
  intros H. exists sd. split; [done|]. rewrite He.
  repeat case_match; simplify_eq; simpl in *; by simplify_eq.
Qed.

(** Every script that [generate_funny_script] returns comes from a
    keyed joke record, formatted and enriched. *)
Lemma generate_inv env w enhanced :
  (generate_funny_script env w).1 = Return (Some enhanced) →
  ∃ joke_data script_data,
    keyed joke_data
    ∧ format_script env joke_data = Return script_data
    ∧ enhance_script_for_video script_data = Return enhanced.
Proof.
  intros Hgen.
  destruct (try_apis_returns env (shuffle env joke_apis)) as (o & Hget & _).
  destruct (backup_joke_well_formed env) as (backup & Hb & _ & Hbwf).
  assert (∃ joke_data,
             (match o with
              | Some d => if truthy (VDict d) then Return d else get_backup_joke env
              | None => get_backup_joke env
              end) = Return joke_data
             ∧ keyed joke_data) as (joke_data & Hpick & Hkeyed).
  { destruct o as [d|]; [destruct (truthy (VDict d)) eqn:Ht|].
    - exists d. split; [done|]. by eapply try_apis_keyed.
    - exists backup. split; [done|]. by apply well_formed_keyed.
    - exists backup. split; [done|]. by apply well_formed_keyed. }
  rewrite (generate_with_joke env w o joke_data Hget Hpick) in Hgen.
  destruct ((finish env joke_data w).1) as [[e|]| |] eqn:Hfin; try done.
  injection Hgen as ->.
  destruct (finish_inv env joke_data w enhanced Hfin) as (sd & Hf & He).
  eauto.
Qed.

End ScriptMoreFacts.

(** X16. The field "source" cannot tell a backup joke from a fetched
    one: every script that [generate_funny_script] returns is marked
    "api", also when all network sources failed and the joke came from
    the backup list. *)
Theorem generated_source_is_always_api env w enhanced :
  (ScriptGenerator.generate_funny_script env w).1 = Return (Some enhanced) →
  enhanced !! "source" = Some (VStr "api").
Proof.
  intros Hgen.
  destruct (generate_inv env w enhanced Hgen) as (jd & sd & Hkeyed & Hf & He).
  destruct (enhance_script_frame sd enhanced He) as [Hframe _].
  rewrite Hframe by not_enrichment.
  destruct (format_script_fields env jd sd Hf) as (_ & _ & _ & ->).
  unfold Notions.keyed in Hkeyed. by rewrite Hkeyed.
Qed.

Lemma generated_source_is_always_api_witness :
  ∃ enhanced,
    (ScriptGenerator.generate_funny_script
       (Scenario.offline (Scenario.always_fails 503)) Scenario.empty_disk).1
    = Return (Some enhanced)
    ∧ enhanced !! "source" = Some (VStr "api").
Proof.
  eexists. split; [reflexivity|].
  apply (generated_source_is_always_api
           (Scenario.offline (Scenario.always_fails 503)) Scenario.empty_disk).
  reflexivity.
Defined.

(** X17. Enrichment only adds: the enriched script has the four keys
    "visual_cues", "text_overlays", "background_audio" and
    "suggested_hashtags" set, and every other key is as in the script it
    was made from. *)
Theorem enhance_only_adds script_data enhanced :
  ScriptGenerator.enhance_script_for_video script_data = Return enhanced →
  (∀ k, k ∉ Notions.enrichment_keys → enhanced !! k = script_data !! k)
  ∧ (∀ k, k ∈ Notions.enrichment_keys → is_Some (enhanced !! k)).
Proof. apply enhance_script_frame. Qed.

Lemma enhance_only_adds_witness :
  ∃ enhanced,
    ScriptGenerator.enhance_script_for_video Scenario.long_script = Return enhanced
    ∧ (∀ k, k ∉ Notions.enrichment_keys → enhanced !! k = Scenario.long_script !! k)
    ∧ (∀ k, k ∈ Notions.enrichment_keys → is_Some (enhanced !! k)).
Proof.
  eexists. split; [reflexivity|].
  apply (enhance_only_adds Scenario.long_script). reflexivity.
Defined.

(** X18. On a script of the generator, [validate_script] checks the
    length of the text and nothing else: for every joke record, the
    formatted and enriched script whose text is a string is accepted
    exactly when the text has at least 10 characters, whatever its
    duration; it never raises there. *)
Theorem validate_generated_script env joke_data script_data enhanced text :
  ScriptGenerator.format_script env joke_data = Return script_data →
  ScriptGenerator.enhance_script_for_video script_data = Return enhanced →
  enhanced !! "script" = Some (VStr text) →
  ScriptGenerator.validate_script enhanced = Return (negb (len text <? 10)).
Proof.
  intros Hf He Hs.
  destruct (enhance_script_frame script_data enhanced He) as [Hframe _].
  destruct (format_script_fields env joke_data script_data Hf)
    as ((d & Hd) & [ty Hty] & _ & _).
  rewrite <- Hframe in Hd, Hty by not_enrichment.
  unfold ScriptGenerator.validate_script, ScriptGenerator.required_fields, has_key,
    getitem.
  simpl. rewrite Hs, Hd, Hty. simpl.
  by destruct (len text <? 10).
Qed.

Lemma validate_generated_script_witness :
  ∃ script_data enhanced,
    ScriptGenerator.format_script (Scenario.offline (Scenario.always_fails 503))
      (ScriptGenerator.one_liner "Oops.") = Return script_data
    ∧ ScriptGenerator.enhance_script_for_video script_data = Return enhanced
    ∧ ScriptGenerator.validate_script enhanced = Return (negb (len "Oops." <? 10)).
Proof.
  eexists _, _. split; [reflexivity|]. split; [reflexivity|].
  eapply (validate_generated_script (Scenario.offline (Scenario.always_fails 503))
            (ScriptGenerator.one_liner "Oops.")); reflexivity.
Defined.

(** X19. The first source of use wins: when the sources in the shuffled
    order start with some that fail or answer with a body that is no JSON
    object, and the next one answers with a body that its branch
    normalizes, [get_joke_from_apis] returns that joke; the sources after
    it play no part. *)
Theorem first_useful_source_wins env before api_url after data joke_data :
  shuffle env ScriptGenerator.joke_apis = before ++ api_url :: after →
  Forall (Notions.useless env) before →
  http_get_json env api_url = Ok data →
  ScriptGenerator.parse_joke api_url data = Return (Some joke_data) →
  ScriptGenerator.get_joke_from_apis env = Return (Some joke_data).
Proof.
  intros Horder Hbefore Hget Hparse.
  unfold ScriptGenerator.get_joke_from_apis. rewrite Horder. clear Horder.
  induction Hbefore as [|u before Hu _ IH]; simpl.
  - unfold ScriptGenerator.fetch_joke_from_api. rewrite Hget. simpl.
    rewrite Hparse. simpl.
    pose proof (keyed_truthy joke_data (parse_joke_keyed _ _ _ Hparse)) as Ht.
    simpl in Ht. by rewrite Ht.
  - by rewrite (fetch_useless env u Hu).
Qed.

Lemma first_useful_source_wins_witness :
  ScriptGenerator.get_joke_from_apis
    (Scenario.online (Scenario.offline (Scenario.always_fails 503))
       (Cases.patchy_network Scenario.joke_response))
  = Return (Some (ScriptGenerator.one_liner
      "My dog used to chase people on a bike a lot. It got so bad I had to take his bike away.")).
Proof.
  apply (first_useful_source_wins
           (Scenario.online (Scenario.offline (Scenario.always_fails 503))
              (Cases.patchy_network Scenario.joke_response))
           [ScriptGenerator.official_joke_api; ScriptGenerator.jokeapi_dev]
           ScriptGenerator.icanhazdadjoke [] (VDict Scenario.joke_response)).
  - reflexivity.
  - constructor; [|constructor; [|constructor]].
    + right. exists (VList []). split; [reflexivity|]. intros [d Hd]. discriminate Hd.
    + left. eexists. reflexivity.
  - reflexivity.
  - reflexivity.
Defined.

(** ** The orchestrator: tags and stages *)

Section MainMoreFacts.

Import Main.

Lemma generate_tags_cases script_data :
  generate_tags script_data =
    match script_data !! "topic" with
    | None | Some (VStr _) => Return (take 15 base_tags)
    | Some _ => Raise AttributeError
    end.
Proof.
  unfold generate_tags, has_key, getitem.
  destruct (script_data !! "topic") as [topic|] eqn:E; simpl.
  - by destruct topic.
  - done.
Qed.

Lemma generate_tags_returns script_data tags :
  generate_tags script_data = Return tags → tags = take 15 base_tags.
Proof.
  rewrite generate_tags_cases.
  destruct (script_data !! "topic") as [[]|]; by intros [= <-].
Qed.

End MainMoreFacts.

(** X20. The tags never depend on the script: the 16 base tags already
    exceed the limit of 15, so [generate_tags] returns the first 15 of
    them whatever the topic says, the words of the topic never among
    them; it raises [AttributeError] when the topic is there and is no
    string. *)
Theorem tags_never_include_the_topic script_data :
  Main.generate_tags script_data =
    match script_data !! "topic" with
    | None | Some (VStr _) => Return (take 15 Main.base_tags)
    | Some _ => Raise AttributeError
    end.
Proof. apply generate_tags_cases. Qed.

Ltac run_step gen create upload :=
  cbn [Main.world Main.trace fst snd negb];
  match goal with
  | |- context [gen ?w] =>
      let o := fresh "o" in let w' := fresh "w" in
      destruct (gen w) as [o w'] eqn:?; destruct o as [[?|]|?|]
  | |- context [create ?s ?w] =>
      let o := fresh "o" in let w' := fresh "w" in
      destruct (create s w) as [o w'] eqn:?; destruct o as [[?|]|?|]
  | |- context [upload ?a ?b ?c ?d ?w] =>
      let o := fresh "o" in let w' := fresh "w" in
      destruct (upload a b c d w) as [o w'] eqn:?; destruct o as [?|?|]
  | |- context [match Main.generate_title ?e ?s with _ => _ end] =>
      destruct (Main.generate_title e s) as [?|?|] eqn:?
  | |- context [match Main.generate_tags ?s with _ => _ end] =>
      let H := fresh "Htags" in
      destruct (Main.generate_tags s) as [?|?|] eqn:H;
      [apply generate_tags_returns in H; subst | |]
  | |- context [if can_write ?e ?p then _ else _] => destruct (can_write e p)
  | |- context [if negb (truthy ?v) then _ else _] => destruct (truthy v) eqn:?
  | |- context [if truthy ?v then _ else _] => destruct (truthy v) eqn:?
  end.


(** X22. A run reports success only after an upload that gave an id:
    when [daily_automation] returns [True], the last stage invoked was the
    upload, and the uploader returned a truthy id for it. *)
Theorem run_succeeds_only_with_an_id
    env generate_funny_script create_video uploader_upload_video r :
  let run := Main.daily_automation env generate_funny_script create_video
               uploader_upload_video r in
  run.1 = Return true →
  ∃ video_path title description tags w id,
    last (Main.trace run.2)
    = Some (Main.UploadVideo video_path title description tags)
    ∧ (uploader_upload_video video_path title description tags w).1 = Return id
    ∧ truthy id = true.
Proof.
  intros run. subst run.
  unfold Main.daily_automation, Main.generate_content, Main.upload_video, try_catch,
    mbind, M_bind, Main.invoke, Main.in_world, lift, mret, M_ret, write_json.
  repeat run_step generate_funny_script create_video uploader_upload_video.
  all: cbn [Main.world Main.trace fst snd negb Main.video_path Main.title
              Main.description Main.tags] in *;
    try (intros [=]; fail);
    try match goal with H : truthy VNone = true |- _ => by vm_compute in H end.
  all: intros _; eexists _, _, _, _, _, _; (split; [by rewrite last_snoc|]).
  all: split;
    [match goal with H : _ = (Return _, _) |- _ => exact (f_equal fst H) end
    |eassumption].
Qed.

Lemma run_succeeds_only_with_an_id_witness :
  let env := Scenario.offline (Scenario.fails_then_ok 0 503 (VStr "abc123")) in
  let run := Main.automation env false (YouTubeUploader.mk true) 1
               (Main.mkRun Scenario.empty_disk []) in
  run.1 = Return true
  ∧ ∃ video_path title description tags w id,
      last (Main.trace run.2)
      = Some (Main.UploadVideo video_path title description tags)
      ∧ (YouTubeUploader.upload_video env (YouTubeUploader.mk true) 1
           video_path title description tags w).1 = Return id
      ∧ truthy id = true.
Proof.
  intros env run. split; [reflexivity|].
  apply (run_succeeds_only_with_an_id env).
  reflexivity.
Defined.

Section RenderMoreFacts.
Variable env : Env.

Lemma create_text_file_cases script_data w :
  VideoCreatorLite.create_text_file env script_data w =
    if can_write env (VideoCreatorLite.text_output_path env)
    then (Return (Some (VideoCreatorLite.text_output_path env)),
          mkWorld (<[VideoCreatorLite.text_output_path env :=
                       VideoCreatorLite.text_content env script_data]> (files w))
            (slept w) (chunks w))
    else (Return None, w).
Proof.
  unfold VideoCreatorLite.create_text_file, try_catch, mbind, M_bind, write_file,
    mret, M_ret.
  by destruct (can_write env _).
Qed.

Lemma draw_lines_returns fonts text_lines i :
  VideoCreatorLite.draw_lines env fonts i text_lines ≠ OutOfFuel.
Proof.
  revert i. induction text_lines as [|line text_lines IH]; intros i; simpl; [done|].
  destruct (truthy line); simpl; [|apply IH].
  unfold lib, mbind, outcome_bind. destruct (lib_ok env _); [|done].
  specialize (IH (i + 1)).
  by destruct (VideoCreatorLite.draw_lines env fonts (i + 1) text_lines).
Qed.

(** The image is saved, or the text file is tried on the disk as it
    was. *)
Lemma create_text_image_cases script_data w :
  (∃ image,
      can_write env (VideoCreatorLite.image_output_path env) = true
      ∧ VideoCreatorLite.create_text_image env script_data w =
          (Return (Some (VideoCreatorLite.image_output_path env)),
           mkWorld (<[VideoCreatorLite.image_output_path env := image]> (files w))
             (slept w) (chunks w)))
  ∨ VideoCreatorLite.create_text_image env script_data w =
      VideoCreatorLite.create_text_file env script_data w.
Proof.
  assert (∀ r : outcome (option string) * World,
             r = VideoCreatorLite.create_text_file env script_data w →
             (let (o, w') := r in
              match o with
              | Return a => (Return a, w')
              | Raise _ => VideoCreatorLite.create_text_file env script_data w'
              | OutOfFuel => (OutOfFuel, w')
              end) = r) as Hfile.
  { intros r ->. rewrite create_text_file_cases. by destruct (can_write env _). }
  unfold VideoCreatorLite.create_text_image, try_catch, mbind, M_bind, outcome_bind,
    lift, mret, M_ret, write_file, lib, getitem, choice.
  destruct (pil_available env); cbn [negb]; [|right; by apply Hfile].
  destruct (_ !! _) as [color|]; [|by right].
  destruct (VideoCreatorLite.load_fonts env) as [fonts|]; [|right; by apply Hfile].
  destruct (script_data !! "type") as [ty|]; [|by right].
  destruct (eq_str ty "dad_joke" && has_key script_data "setup").
  - destruct (script_data !! "setup") as [setup|]; [|by right].
    destruct (script_data !! "punchline") as [punchline|]; [|by right].
    match goal with |- context [VideoCreatorLite.draw_lines env fonts 0 ?l] =>
      pose proof (draw_lines_returns fonts l 0);
      destruct (VideoCreatorLite.draw_lines env fonts 0 l) as [drawn| |] end;
      [|by right|done].
    destruct (lib_ok env SaveImage); [|by right].
    destruct (can_write env (VideoCreatorLite.image_output_path env)); [|by right].
    left. eauto.
  - destruct (script_data !! "script") as [script|]; [|by right].
    match goal with |- context [VideoCreatorLite.draw_lines env fonts 0 ?l] =>
      pose proof (draw_lines_returns fonts l 0);
      destruct (VideoCreatorLite.draw_lines env fonts 0 l) as [drawn| |] end;
      [|by right|done].
    destruct (lib_ok env SaveImage); [|by right].
    destruct (can_write env (VideoCreatorLite.image_output_path env)); [|by right].
    left. eauto.
Qed.

Lemma lite_create_video_cases script_data w :
  VideoCreatorLite.create_video env script_data w =
    VideoCreatorLite.create_text_image env script_data w.
Proof.
  unfold VideoCreatorLite.create_video, try_catch, mbind, M_bind, mret, M_ret.
  destruct (create_text_image_cases script_data w) as [(image & _ & ->) | ->].
  - done.
  - rewrite create_text_file_cases. by destruct (can_write env _).
Qed.

(** No step of the composition runs out of fuel: there is no loop. *)
Lemma bind_returns {A B} (m : outcome A) (f : A → outcome B) :
  m ≠ OutOfFuel → (∀ a, f a ≠ OutOfFuel) → m ≫= f ≠ OutOfFuel.
Proof. destruct m; simpl; auto. Qed.

Lemma try_except_returns {A} (m : outcome A) (h : exn → outcome A) :
  m ≠ OutOfFuel → (∀ e, h e ≠ OutOfFuel) → try_except m h ≠ OutOfFuel.
Proof. destruct m; simpl; auto. Qed.

Lemma lib_returns {A} c (r : A) : lib env c r ≠ OutOfFuel.
Proof. unfold lib. by destruct (lib_ok env c). Qed.

Lemma getitem_returns d k : getitem d k ≠ OutOfFuel.
Proof. unfold getitem. by destruct (d !! k). Qed.

Lemma choice_returns {A} r (l : list A) : choice r l ≠ OutOfFuel.
Proof. unfold choice. by case_match. Qed.

Lemma create_background_video_returns d :
  VideoCreator.create_background_video env d ≠ OutOfFuel.
Proof.
  apply bind_returns; [apply choice_returns | intros; apply lib_returns].
Qed.

Lemma create_text_clip_returns text a b position fontsize :
  VideoCreator.create_text_clip env text a b position fontsize ≠ OutOfFuel.
Proof.
  apply bind_returns; [by destruct text|].
  intros n. apply try_except_returns; intros; apply lib_returns.
Qed.

Lemma create_emoji_clip_returns emoji a b :
  VideoCreator.create_emoji_clip env emoji a b ≠ OutOfFuel.
Proof.
  apply try_except_returns; [|done].
  apply bind_returns; [apply lib_returns|]. intros c.
  apply bind_returns; [apply lib_returns|]. done.
Qed.

Lemma create_video_from_script_returns script_data :
  VideoCreator.create_video_from_script env script_data ≠ OutOfFuel.
Proof.
  apply try_except_returns; [|done].
  apply bind_returns; [by destruct (dict_get _ _ _)|]. intros duration.
  apply bind_returns.
  { destruct (coin env); [|apply create_background_video_returns].
    apply try_except_returns;
      [apply lib_returns | intros; apply create_background_video_returns]. }
  intros background.
  apply bind_returns; [apply getitem_returns|]. intros ty.
  apply bind_returns.
  { destruct (_ && _).
    - apply bind_returns; [apply getitem_returns|]. intros setup.
      apply bind_returns; [apply create_text_clip_returns|]. intros setup_clip.
      apply bind_returns; [apply getitem_returns|]. intros punchline.
      apply bind_returns; [apply create_text_clip_returns|]. intros punchline_clip.
      apply bind_returns; [apply create_emoji_clip_returns|]. done.
    - apply bind_returns; [apply getitem_returns|]. intros script.
      apply bind_returns; [apply create_text_clip_returns|]. intros text_clip.
      apply bind_returns; [apply create_emoji_clip_returns|]. done. }
  intros clips.
  apply bind_returns; [apply lib_returns|]. done.
Qed.

End RenderMoreFacts.

(** X23. No renderer raises, and each writes exactly what it returns:
    [create_video] of the full and of the lite renderer always returns;
    when it returns a path, the disk differs from before in the file at
    that path alone, and when it returns [None] the disk is as it was. *)
Theorem renderers_write_what_they_return env (full_renderer : bool) script_data w :
  let create_video := if full_renderer then VideoCreator.create_video env
                      else VideoCreatorLite.create_video env in
  ∃ o w',
    create_video script_data w = (Return o, w')
    ∧ match o with
      | Some path =>
          ∃ f, w' = mkWorld (<[path := f]> (files w)) (slept w) (chunks w)
      | None => w' = w
      end.
Proof.
  destruct full_renderer; simpl.
  - unfold VideoCreator.create_video, try_catch, mbind, M_bind, lift, lib,
      write_file, mret, M_ret.
    pose proof (create_video_from_script_returns env script_data).
    destruct (VideoCreator.create_video_from_script env script_data)
      as [[video|]| |]; [| by eexists _, _ .. |done].
    destruct (lib_ok env WriteVideofile); [|by eexists _, _].
    destruct (can_write env _); [|by eexists _, _].
    eexists _, _. split; [done|]. by eexists.
  - rewrite lite_create_video_cases.
    destruct (create_text_image_cases env script_data w) as [(image & _ & ->) | ->].
    + eexists _, _. split; [done|]. by eexists.
    + rewrite create_text_file_cases. destruct (can_write env _).
      * eexists _, _. split; [done|]. by eexists.
      * by eexists _, _.
Qed.

(** X24. The lite renderer delivers whenever its text file can be
    written: whatever the script holds and whatever fails on the way to
    the image, [create_video] returns the path of the image it saved or
    of the text file it wrote instead, the text file holding the fields
    of [create_text_file]. *)
Theorem lite_renderer_delivers_when_text_is_writable env script_data w :
  can_write env (VideoCreatorLite.text_output_path env) = true →
  ∃ path f,
    VideoCreatorLite.create_video env script_data w =
      (Return (Some path),
       mkWorld (<[path := f]> (files w)) (slept w) (chunks w))
    ∧ (path = VideoCreatorLite.image_output_path env
       ∨ (path = VideoCreatorLite.text_output_path env
          ∧ f = VideoCreatorLite.text_content env script_data)).
Proof.
  intros Hw. rewrite lite_create_video_cases.
  destruct (create_text_image_cases env script_data w) as [(image & _ & ->) | ->].
  - eexists _, _. split; [done|]. by left.
  - rewrite create_text_file_cases, Hw. eexists _, _. split; [done|]. by right.
Qed.

Lemma lite_renderer_delivers_when_text_is_writable_witness :
  let env := Scenario.broken_media (Scenario.offline (Scenario.always_fails 503)) in
  can_write env (VideoCreatorLite.text_output_path env) = true
  ∧ ∃ path f,
      VideoCreatorLite.create_video env ∅ Scenario.empty_disk =
        (Return (Some path),
         mkWorld (<[path := f]> (files Scenario.empty_disk))
           (slept Scenario.empty_disk) (chunks Scenario.empty_disk))
      ∧ (path = VideoCreatorLite.image_output_path env
         ∨ (path = VideoCreatorLite.text_output_path env
            ∧ f = VideoCreatorLite.text_content env ∅)).
Proof.
  intros env. split; [reflexivity|].
  apply (lite_renderer_delivers_when_text_is_writable env ∅ Scenario.empty_disk).
  reflexivity.
Defined.

Lemma getitem_Some (d : dict) k v : d !! k = Some v → getitem d k = Return v.
Proof. unfold getitem. by intros ->. Qed.

Section RenderEssentials.
Variable env : Env.
Hypothesis Hcolor : lib_ok env NewColorClip = true.
Hypothesis Htext : ∀ text, lib_ok env (NewTextClip false text) = true.
Hypothesis Hcomposite : lib_ok env NewComposite = true.

Lemma background_essential duration :
  ∃ background,
    (if coin env then VideoCreator.create_animated_background env duration
     else VideoCreator.create_background_video env duration) = Return background.
Proof.
  assert (∃ background,
             VideoCreator.create_background_video env duration = Return background)
    as [background Hb].
  { unfold VideoCreator.create_background_video, choice, lib.
    destruct (_ !! _) as [color|] eqn:Hc; simpl.
    - rewrite Hcolor. eauto.
    - apply lookup_ge_None in Hc. simpl in Hc.
      pose proof (Nat.mod_upper_bound (rand env) 8). lia. }
  destruct (coin env); [|eauto].
  unfold VideoCreator.create_animated_background, lib.
  destruct (lib_ok env NewVideoFileClip); simpl; eauto.
Qed.

Lemma text_clip_essential (text : string) a b position fontsize :
  ∃ c, VideoCreator.create_text_clip env (VStr text) a b position fontsize = Return c.
Proof.
  unfold VideoCreator.create_text_clip, lib. simpl.
  destruct (lib_ok env (NewTextClip true _)); simpl; [eauto|].
  rewrite Htext. eauto.
Qed.

Lemma emoji_clip_optional emoji a b :
  ∃ o, VideoCreator.create_emoji_clip env emoji a b = Return o.
Proof.
  unfold VideoCreator.create_emoji_clip, lib.
  destruct (lib_ok env NewEmojiClip); simpl; [|eauto].
  destruct (lib_ok env ResizeClip); simpl; eauto.
Qed.

End RenderEssentials.

(** X25. Optional clips never fail the video: when the plain colour
    clip, the unstyled text clip and the composite can be made, the
    duration is a number and the script has its type and its texts as
    strings, [create_video_from_script] returns a video of the clamped
    duration with a background and at least one text clip, even when the
    gradient file, the styled text and the emoji clip all fail. *)
Theorem optional_clips_never_fail_the_video env script_data ty (script : string) d :
  lib_ok env NewColorClip = true →
  (∀ text, lib_ok env (NewTextClip false text) = true) →
  lib_ok env NewComposite = true →
  VideoCreator.min_60 (dict_get script_data "duration" (VInt 10)) = Return d →
  script_data !! "type" = Some ty →
  script_data !! "script" = Some (VStr script) →
  (is_Some (script_data !! "setup") →
   ∃ setup punchline : string,
     script_data !! "setup" = Some (VStr setup)
     ∧ script_data !! "punchline" = Some (VStr punchline)) →
  ∃ video,
    VideoCreator.create_video_from_script env script_data = Return (Some video)
    ∧ VideoCreator.duration video = d
    ∧ (2 <= length (VideoCreator.clips video))%nat.
Proof.
  intros Hcolor Htext Hcomposite Hd Hty Hscript Hsetup.
  unfold VideoCreator.create_video_from_script.
  rewrite Hd. cbn [mbind outcome_bind].
  destruct (background_essential env Hcolor d) as [background ->].
  cbn [mbind outcome_bind].
  rewrite (getitem_Some _ _ _ Hty). cbn [mbind outcome_bind].
  destruct (eq_str ty "dad_joke" && has_key script_data "setup") eqn:Hkind.
  - apply andb_prop in Hkind as [_ Hhas].
    unfold has_key in Hhas. apply bool_decide_eq_true in Hhas.
    destruct (Hsetup Hhas) as (setup & punchline & Hs & Hp).
    rewrite (getitem_Some _ _ _ Hs), (getitem_Some _ _ _ Hp). cbn [mbind outcome_bind].
    destruct (text_clip_essential env Htext setup 0 (d * (6 # 10)) "center" None)
      as [c1 ->]. cbn [mbind outcome_bind].
    destruct (text_clip_essential env Htext punchline (d * (4 # 10)) d "center"
                (Some (VideoCreator.text_fontsize + 10))) as [c2 ->].
    cbn [mbind outcome_bind].
    destruct (emoji_clip_optional env "😂" (d * (8 # 10)) 1) as [o ->].
    cbn [mbind outcome_bind].
    unfold lib. rewrite Hcomposite. cbn [mbind outcome_bind try_except].
    eexists. split; [reflexivity|]. split; [by destruct (truthy _)|].
    destruct (truthy _); simpl; lia.
  - rewrite (getitem_Some _ _ _ Hscript). cbn [mbind outcome_bind].
    destruct (text_clip_essential env Htext script 0 d "center" None) as [c1 ->].
    cbn [mbind outcome_bind].
    destruct (emoji_clip_optional env "🤣" (d * (7 # 10)) 1) as [o ->].
    cbn [mbind outcome_bind].
    unfold lib. rewrite Hcomposite. cbn [mbind outcome_bind try_except].
    eexists. split; [reflexivity|]. split; [by destruct (truthy _)|].
    destruct (truthy _); simpl; lia.
Qed.

Lemma optional_clips_never_fail_the_video_witness :
  let env := Cases.bare_media (Scenario.offline (Scenario.always_fails 503)) in
  ∃ video,
    VideoCreator.create_video_from_script env Cases.test_script = Return (Some video)
    ∧ VideoCreator.duration video = inject_Z 8
    ∧ (2 <= length (VideoCreator.clips video))%nat.
Proof.
  intros env.
  apply (optional_clips_never_fail_the_video env Cases.test_script (VStr "dad_joke")
           "Why don't scientists trust atoms? Because they make up everything!"
           (inject_Z 8)).
  - reflexivity.
  - intros text. reflexivity.
  - reflexivity.
  - reflexivity.
  - reflexivity.
  - reflexivity.
  - intros _. exists "Why don't scientists trust atoms?", "Because they make up everything!".
    split; reflexivity.
Defined.

(** X26. Metadata that cannot be saved stops the run before the upload:
    when the metadata file cannot be opened for writing,
    [daily_automation] does not return [True] and invokes no upload,
    whatever the generator and the renderer delivered. *)
Theorem unsaved_metadata_blocks_upload
    env generate_funny_script create_video uploader_upload_video r :
  can_write env (Main.metadata_path env) = false →
  let run := Main.daily_automation env generate_funny_script create_video
               uploader_upload_video r in
  run.1 ≠ Return true
  ∧ ∃ evs, Main.trace run.2 = Main.trace r ++ evs
           ∧ ∀ ev, ev ∈ evs → Main.is_upload ev = false.
Proof.
  intros Hw run. subst run.
  unfold Main.daily_automation, Main.generate_content, Main.upload_video, try_catch,
    mbind, M_bind, Main.invoke, Main.in_world, lift, mret, M_ret, write_json.
  rewrite Hw.
  repeat run_step generate_funny_script create_video uploader_upload_video.
  all: cbn [Main.world Main.trace fst snd negb].
  all: (split; [done|]).
  all: rewrite <- ?app_assoc; eexists; (split; [reflexivity|]).
  all: intros ev Hev; cbn [app] in Hev;
    repeat (apply elem_of_cons in Hev as [->|Hev]; [done|]);
    by apply elem_of_nil in Hev.
Qed.

Lemma unsaved_metadata_blocks_upload_witness :
  let offline := Scenario.offline (Scenario.fails_then_ok 0 503 (VStr "abc123")) in
  let env := Cases.unwritable (Main.metadata_path offline) offline in
  let run := Main.automation env false (YouTubeUploader.mk true) 1
               (Main.mkRun Scenario.empty_disk []) in
  can_write env (Main.metadata_path env) = false
  ∧ run.1 = Return false
  ∧ Main.is_upload <$> Main.trace run.2 = [false; false]
  ∧ run.1 ≠ Return true
  ∧ ∃ evs, Main.trace run.2 = [] ++ evs
           ∧ ∀ ev, ev ∈ evs → Main.is_upload ev = false.
Proof.
  intros offline env run.
  split; [reflexivity|]. split; [reflexivity|]. split; [reflexivity|].
  apply (unsaved_metadata_blocks_upload env). reflexivity.
Defined.
